(** * The SWIPEYY reconnaissance console: the request state machine of [App]

    A shallow embedding of the dashboard's component ([App], with
    [buildMockProfile], [formatTime] and the tables it reads) and of the
    record types of [src/types.ts], followed by the properties of the
    request state machine, the profile generator and the metric chips.

    The component is a set of React state cells written by an [async]
    function that suspends on three timers.  It is modelled as a machine:
    the state cells, a clock, and the list of suspended continuations with
    the instant at which each one is due. *)

From Stdlib Require Import List ZArith QArith Qround Bool Ascii String Lia.
Import ListNotations.

Close Scope Q_scope.
Local Open Scope Z_scope.

(** Left-to-right application: a block of statements that each update the
    state reads top to bottom. *)
Notation "x |> f" := (f x) (at level 49, left associativity, only parsing).

(* ================================================================== *)
(** * The JavaScript runtime: strings, URI encoding, dates              *)
(* ================================================================== *)

(** A JavaScript string is a sequence of UTF-16 code units; [length] counts
    code units. *)
Definition jsstring := list Z.

(** The code units of an ASCII literal of the source. *)
Definition lit (s : string) : jsstring :=
  map (fun a => Z.of_N (N_of_ascii a)) (list_ascii_of_string s).

(** [WhiteSpace] and [LineTerminator] code points, the ones [trim] strips. *)
Definition isWhiteSpace (c : Z) : bool :=
  (c =? 9) || (c =? 10) || (c =? 11) || (c =? 12) || (c =? 13) || (c =? 32)
  || (c =? 160) || (c =? 5760) || ((8192 <=? c) && (c <=? 8202))
  || (c =? 8232) || (c =? 8233) || (c =? 8239) || (c =? 8287)
  || (c =? 12288) || (c =? 65279).

Fixpoint trimStart (s : jsstring) : jsstring :=
  match s with
  | [] => []
  | c :: rest => if isWhiteSpace c then trimStart rest else s
  end.

Definition trimEnd (s : jsstring) : jsstring := rev (trimStart (rev s)).

Definition trim (s : jsstring) : jsstring := trimEnd (trimStart s).

(** Truthiness of a string: the empty string is the only falsy one. *)
Definition truthy (s : jsstring) : bool :=
  match s with [] => false | _ :: _ => true end.

(** What a call evaluates to: a value, or a thrown [Error] with its
    [message]. *)
Inductive Completion (A : Type) : Type :=
| Normal (value : A)
| Throw (message : jsstring).
Arguments Normal {A} value.
Arguments Throw {A} message.

(** ** [encodeURIComponent] *)

Definition inRange (lo hi c : Z) : bool := (lo <=? c) && (c <=? hi).

(** The set that [encodeURIComponent] leaves as it is: letters, digits and
    [- _ . ! ~ * ' ( )]. *)
Definition uriUnreserved (c : Z) : bool :=
  inRange 65 90 c || inRange 97 122 c || inRange 48 57 c
  || (c =? 45) || (c =? 95) || (c =? 46) || (c =? 33) || (c =? 126)
  || (c =? 42) || (c =? 39) || (c =? 40) || (c =? 41).

Definition isLeadingSurrogate (c : Z) : bool := inRange 55296 56319 c.
Definition isTrailingSurrogate (c : Z) : bool := inRange 56320 57343 c.

Definition utf16SurrogatePairToCodePoint (lead trail : Z) : Z :=
  (lead - 55296) * 1024 + (trail - 56320) + 65536.

(** The octets of the UTF-8 form of a code point. *)
Definition utf8 (cp : Z) : list Z :=
  if cp <? 128 then [cp]
  else if cp <? 2048 then
    [Z.lor 192 (Z.shiftr cp 6); Z.lor 128 (Z.land cp 63)]
  else if cp <? 65536 then
    [Z.lor 224 (Z.shiftr cp 12);
     Z.lor 128 (Z.land (Z.shiftr cp 6) 63);
     Z.lor 128 (Z.land cp 63)]
  else
    [Z.lor 240 (Z.shiftr cp 18);
     Z.lor 128 (Z.land (Z.shiftr cp 12) 63);
     Z.lor 128 (Z.land (Z.shiftr cp 6) 63);
     Z.lor 128 (Z.land cp 63)].

Definition hexDigit (d : Z) : Z := if d <? 10 then 48 + d else 55 + d.

(** One octet as [%XX], upper-case hexadecimal. *)
Definition percent (octet : Z) : jsstring :=
  [37; hexDigit (octet / 16); hexDigit (octet mod 16)].

Definition percentAll (octets : list Z) : jsstring := flat_map percent octets.

Definition uriMalformed : jsstring := lit "URI malformed".

(** [encodeURIComponent]: a [URIError] on a surrogate that has no partner. *)
Fixpoint encodeURIComponent (s : jsstring) : Completion jsstring :=
  let continue (head : jsstring) (tail : Completion jsstring) :=
    match tail with
    | Normal r => Normal (head ++ r)
    | Throw e => Throw e
    end in
  match s with
  | [] => Normal []
  | c :: rest =>
      if uriUnreserved c then continue [c] (encodeURIComponent rest)
      else if isTrailingSurrogate c then Throw uriMalformed
      else if isLeadingSurrogate c then
        match rest with
        | [] => Throw uriMalformed
        | d :: rest' =>
            if isTrailingSurrogate d
            then continue (percentAll (utf8 (utf16SurrogatePairToCodePoint c d)))
                          (encodeURIComponent rest')
            else Throw uriMalformed
        end
      else continue (percentAll (utf8 c)) (encodeURIComponent rest)
  end.

(** [String.prototype.isWellFormed]: no lone surrogate. *)
Fixpoint isWellFormed (s : jsstring) : bool :=
  match s with
  | [] => true
  | c :: rest =>
      if isTrailingSurrogate c then false
      else if isLeadingSurrogate c then
        match rest with
        | [] => false
        | d :: rest' => isTrailingSurrogate d && isWellFormed rest'
        end
      else isWellFormed rest
  end.

(** ** Dates *)

Definition msPerDay : Z := 86400000.

(** Decimal digits of [n], padded with zeros to [width] places. *)
Fixpoint digits (width : nat) (n : Z) : jsstring :=
  match width with
  | O => []
  | S w => digits w (n / 10) ++ [48 + n mod 10]
  end.

(** Year, month and day of the proleptic Gregorian calendar for a day
    number counted from 1970-01-01. *)
Definition civilFromDays (day : Z) : Z * Z * Z :=
  let z := day + 719468 in
  let era := z / 146097 in
  let doe := z - era * 146097 in
  let yoe := (doe - doe / 1460 + doe / 36524 - doe / 146096) / 365 in
  let doy := doe - (365 * yoe + yoe / 4 - yoe / 100) in
  let mp := (5 * doy + 2) / 153 in
  let d := doy - (153 * mp + 2) / 5 + 1 in
  let m := if mp <? 10 then mp + 3 else mp - 9 in
  let y := yoe + era * 400 + (if m <=? 2 then 1 else 0) in
  (y, m, d).

Definition isoYear (y : Z) : jsstring :=
  if (0 <=? y) && (y <=? 9999) then digits 4 y
  else (if y <? 0 then lit "-" else lit "+") ++ digits 6 (Z.abs y).

Definition isoDate (t : Z) : jsstring :=
  let '(y, m, d) := civilFromDays (t / msPerDay) in
  isoYear y ++ lit "-" ++ digits 2 m ++ lit "-" ++ digits 2 d.

Definition isoTime (t : Z) : jsstring :=
  let ms := t mod msPerDay in
  digits 2 (ms / 3600000) ++ lit ":" ++ digits 2 (ms / 60000 mod 60)
  ++ lit ":" ++ digits 2 (ms / 1000 mod 60) ++ lit "." ++ digits 3 (ms mod 1000).

(** [Date.prototype.toISOString] of the time value [t], in milliseconds
    since the epoch.  The clock of the machine stays inside the range of
    [Date], where the method does not throw. *)
Definition toISOString (t : Z) : jsstring :=
  isoDate t ++ lit "T" ++ isoTime t ++ lit "Z".

(** [s.split(sep)] for a separator of one code unit. *)
Fixpoint split (sep : Z) (s : jsstring) : list jsstring :=
  match s with
  | [] => [[]]
  | c :: rest =>
      match split sep rest with
      | [] => [[]]
      | piece :: pieces =>
          if c =? sep then [] :: piece :: pieces else (c :: piece) :: pieces
      end
  end.

(** [s.slice(0, -1)]: all but the last code unit. *)
Definition sliceButLast (s : jsstring) : jsstring := removelast s.

(** [new Date(v)] clips its argument to an integral number of
    milliseconds, towards zero. *)
Definition timeClip (v : Q) : Z := Z.quot (Qnum v) (Zpos (Qden v)).

(** [Math.floor]. *)
Definition floor (v : Q) : Z := Qfloor v.

(* ================================================================== *)
(** * [src/types.ts]                                                    *)
(* ================================================================== *)

Inductive Platform := SNAPCHAT | INSTAGRAM | FACEBOOK.
Inductive AccountStatus := PUBLIC | PRIVATE | SUSPENDED.
(** ['AES-256' | 'NONE'] *)
Inductive EncryptionLevel := AES_256 | NONE.
Inductive MeoContainerState := LOCKED | EXPOSED.

Module Metadata.
Record t := mk {
  realName : option jsstring;          (* string | null *)
  accountCreated : jsstring;
  lastActive : jsstring;
  score : option Z;                    (* score?: number *)
  avatarUrl : option jsstring;         (* avatarUrl?: string *)
}.
End Metadata.

Module Security.
Record t := mk {
  encryptionLevel : EncryptionLevel;
  meoContainer : MeoContainerState;
  twoFactorAuth : bool;
}.
End Security.

Module TargetProfile.
Record t := mk {
  id : jsstring;
  username : jsstring;
  platform : Platform;
  status : AccountStatus;
  metadata : Metadata.t;
  security : Security.t;
}.
End TargetProfile.

Inductive ReconStatus :=
| IDLE | CONNECTING | FETCHING_HEADERS | PARSING_JSON | COMPLETE | ERROR.

Module LogEntry.
Inductive kind := info | sys | success | warn | error.
Record t := mk {
  time : jsstring;
  msg : jsstring;
  type : kind;
}.
End LogEntry.

Module Connector.
Inductive Mode := API | UPLOAD | CRAWL.
Record t := mk {
  id : jsstring;
  label : jsstring;
  domain : jsstring;
  mode : Mode;
  compliant : bool;
}.
End Connector.

Module JobRecord.
Inductive Status := QUEUED | RUNNING | COMPLETED | ERRORED.
Definition Status_eq_dec (a b : Status) : {a = b} + {a <> b}.
Proof. decide equality. Defined.
Record t := mk {
  id : jsstring;
  source : jsstring;
  status : Status;
  artifacts : Z;
  updatedAt : jsstring;
}.
End JobRecord.

(* ================================================================== *)
(** * The component                                                     *)
(* ================================================================== *)

(** [formatTime]: the time of day of the clock reading [now], as
    [toISOString().split('T')[1].slice(0, -1)].  The ISO form always has a
    piece after its ['T'] (lemma [formatTime_isoTime]), so the indexing
    never yields [undefined]. *)
Definition formatTime (now : Z) : jsstring :=
  sliceButLast (nth 1 (split 84 (toISOString now)) []).

(** The sources of values that differ from call to call: the [n]-th result
    of [Math.random] (in [0, 1)) and of [crypto.randomUUID]. *)
Record World := {
  random : nat -> Q;
  randomUUID : nat -> jsstring;
}.

Definition avatarBase : jsstring :=
  lit "https://api.dicebear.com/9.x/thumbs/svg?seed=".

(** [buildMockProfile].  [now] is the reading of [new Date()]; [r] and [u]
    count the draws of [Math.random] and [crypto.randomUUID] made before
    the call.  The products of the source are taken exactly, not rounded to
    a double. *)
Definition buildMockProfile (w : World) (now : Z) (r u : nat)
    (username : jsstring) : Completion TargetProfile.t :=
  let created :=
    timeClip (inject_Z now - random w r * inject_Z (1000 * 60 * 60 * 24 * 365))%Q in
  let lastActive :=
    timeClip (inject_Z now - random w (r + 1) * inject_Z (1000 * 60 * 60 * 24))%Q in
  let id := randomUUID w u in
  let score := floor (random w (r + 2) * inject_Z 500000)%Q in
  match encodeURIComponent username with
  | Throw e => Throw e
  | Normal seed =>
      Normal {|
        TargetProfile.id := id;
        TargetProfile.username := username;
        TargetProfile.platform := SNAPCHAT;
        TargetProfile.status := PUBLIC;
        TargetProfile.metadata := {|
          Metadata.realName := Some (lit "Unknown Subject");
          Metadata.accountCreated := toISOString created;
          Metadata.lastActive := toISOString lastActive;
          Metadata.score := Some score;
          Metadata.avatarUrl := Some (avatarBase ++ seed);
        |};
        TargetProfile.security := {|
          Security.encryptionLevel := AES_256;
          Security.meoContainer := LOCKED;
          Security.twoFactorAuth :=
            if Qlt_le_dec (35 # 100) (random w (r + 3)) then true else false;
        |};
      |}
  end.

(** How many [Math.random] draws a call of [buildMockProfile] makes: the
    fourth one comes after the URI encoding and is not reached when that
    throws. *)
Definition drawsOfBuild (username : jsstring) : nat :=
  match encodeURIComponent username with
  | Normal _ => 4%nat
  | Throw _ => 3%nat
  end.

Definition connectors : list Connector.t := [
  Connector.mk (lit "wikimedia") (lit "Wikimedia Commons") (lit "commons.wikimedia.org") Connector.API true;
  Connector.mk (lit "inaturalist") (lit "iNaturalist") (lit "api.inaturalist.org") Connector.API true;
  Connector.mk (lit "uploads") (lit "Secure Uploads") (lit "uploads.swipeyy.internal") Connector.UPLOAD true;
  Connector.mk (lit "custom") (lit "Custom Connector Slot") (lit "pending") Connector.CRAWL false
].

Definition jobQueue : list JobRecord.t := [
  JobRecord.mk (lit "JOB-2041") (lit "Wikimedia") JobRecord.COMPLETED 24 (lit "08:11:20Z");
  JobRecord.mk (lit "JOB-2042") (lit "iNaturalist") JobRecord.RUNNING 7 (lit "08:11:38Z");
  JobRecord.mk (lit "JOB-2043") (lit "Uploads") JobRecord.QUEUED 0 (lit "08:12:03Z");
  JobRecord.mk (lit "JOB-2044") (lit "Custom") JobRecord.ERRORED 0 (lit "08:12:30Z")
].

(** ** The state cells of [App] *)

Record AppState := {
  query : jsstring;
  status : ReconStatus;
  logs : list LogEntry.t;
  targetData : option TargetProfile.t;
  errorMessage : jsstring;
  encryptedDetections : Z;
}.

Definition initialState : AppState := {|
  query := [];
  status := IDLE;
  logs := [];
  targetData := None;
  errorMessage := [];
  encryptedDetections := 0;
|}.

Definition setQuery (v : jsstring) (s : AppState) : AppState :=
  {| query := v; status := status s; logs := logs s;
     targetData := targetData s; errorMessage := errorMessage s;
     encryptedDetections := encryptedDetections s |}.

Definition setStatus (v : ReconStatus) (s : AppState) : AppState :=
  {| query := query s; status := v; logs := logs s;
     targetData := targetData s; errorMessage := errorMessage s;
     encryptedDetections := encryptedDetections s |}.

(** [setLogs] is only ever called with an updater or with [[]]. *)
Definition setLogs (f : list LogEntry.t -> list LogEntry.t) (s : AppState)
    : AppState :=
  {| query := query s; status := status s; logs := f (logs s);
     targetData := targetData s; errorMessage := errorMessage s;
     encryptedDetections := encryptedDetections s |}.

Definition setTargetData (v : option TargetProfile.t) (s : AppState)
    : AppState :=
  {| query := query s; status := status s; logs := logs s;
     targetData := v; errorMessage := errorMessage s;
     encryptedDetections := encryptedDetections s |}.

Definition setErrorMessage (v : jsstring) (s : AppState) : AppState :=
  {| query := query s; status := status s; logs := logs s;
     targetData := targetData s; errorMessage := v;
     encryptedDetections := encryptedDetections s |}.

Definition setEncryptedDetections (f : Z -> Z) (s : AppState) : AppState :=
  {| query := query s; status := status s; logs := logs s;
     targetData := targetData s; errorMessage := errorMessage s;
     encryptedDetections := f (encryptedDetections s) |}.

(** [addLog]; the source's default for [type] is ['info'].  [now] is the
    clock reading that [formatTime] takes. *)
Definition addLog (now : Z) (message : jsstring) (type : LogEntry.kind)
    (s : AppState) : AppState :=
  s |> setLogs (fun prev => prev ++ [LogEntry.mk (formatTime now) message type]).

Definition clearSession (s : AppState) : AppState :=
  s |> setLogs (fun _ => [])
    |> setTargetData None
    |> setErrorMessage []
    |> setStatus IDLE.

(** ** Suspended continuations *)

(** The three [await]s of [executeRecon], in source order: after the socket
    line, after the handshake, after the payload starts streaming. *)
Inductive Await := AwaitConnect | AwaitHeaders | AwaitPayload.

(** A timer set by [setTimeout(resolve, delay)]: when it is due, the run of
    [executeRecon] that holds it goes on after [resume], with the [query]
    its closure captured.  The source keeps no handle on its timers. *)
Record Timer := {
  due : Z;
  captured : jsstring;
  resume : Await;
}.

Record Machine := {
  app : AppState;
  clock : Z;                 (* milliseconds since the epoch *)
  timers : list Timer;       (* in the order they were set *)
  randoms : nat;             (* Math.random draws made so far *)
  uuids : nat;               (* crypto.randomUUID draws made so far *)
}.

Definition boot (t0 : Z) : Machine := {|
  app := initialState;
  clock := t0;
  timers := [];
  randoms := 0;
  uuids := 0;
|}.

Definition update (f : AppState -> AppState) (m : Machine) : Machine :=
  {| app := f (app m); clock := clock m; timers := timers m;
     randoms := randoms m; uuids := uuids m |}.

Definition setTimeout (delay : Z) (q : jsstring) (k : Await) (m : Machine)
    : Machine :=
  {| app := app m; clock := clock m;
     timers := timers m ++ [{| due := clock m + delay; captured := q; resume := k |}];
     randoms := randoms m; uuids := uuids m |}.

Definition drawn (r u : nat) (m : Machine) : Machine :=
  {| app := app m; clock := clock m; timers := timers m;
     randoms := (randoms m + r)%nat; uuids := (uuids m + u)%nat |}.

(** ** [executeRecon] *)

(** The [catch] block. *)
Definition catchBlock (reason : jsstring) (m : Machine) : Machine :=
  m |> update (setStatus ERROR)
    |> update (setErrorMessage reason)
    |> update (addLog (clock m) (lit "FATAL: " ++ reason) LogEntry.error).

(** [executeRecon] up to its first [await]. *)
Definition executeRecon (m : Machine) : Machine :=
  let q := query (app m) in
  if negb (truthy (trim q)) then
    m |> update (setErrorMessage (lit "Enter a username to start reconnaissance."))
  else
    m |> update clearSession
      |> update (setStatus CONNECTING)
      |> update (addLog (clock m)
                   (lit "Initializing network socket for " ++ q ++ lit "...")
                   LogEntry.sys)
      |> setTimeout 500 q AwaitConnect.

(** [executeRecon] from the [await] of timer [t] to the next one, or to its
    end. *)
Definition continueRecon (w : World) (t : Timer) (m : Machine) : Machine :=
  let q := captured t in
  match resume t with
  | AwaitConnect =>
      m |> update (addLog (clock m) (lit "TLS handshake complete.") LogEntry.info)
        |> update (setStatus FETCHING_HEADERS)
        |> setTimeout 500 q AwaitHeaders
  | AwaitHeaders =>
      let m1 :=
        m |> update (addLog (clock m)
                       (lit "GET /api/v1/profile/" ++ q ++ lit " -> 200 OK")
                       LogEntry.success) in
      if Z.of_nat (List.length q) <? 3 then
        catchBlock (lit "Username too short (HTTP 400)") m1
      else
        m1 |> update (setStatus PARSING_JSON)
           |> update (addLog (clock m) (lit "Streaming JSON payload...") LogEntry.info)
           |> setTimeout 600 q AwaitPayload
  | AwaitPayload =>
      let m1 := drawn (drawsOfBuild q) 1 m in
      match buildMockProfile w (clock m) (randoms m) (uuids m) q with
      | Throw reason => catchBlock reason m1
      | Normal profile =>
          m1 |> update (setTargetData (Some profile))
             |> update (setEncryptedDetections (fun prev => prev + 1))
             |> update (setStatus COMPLETE)
             |> update (addLog (clock m) (lit "Data object materialized.") LogEntry.success)
             |> update (addLog (clock m)
                          (lit "MEO container detected: AES-256 encrypted. No access without device key.")
                          LogEntry.warn)
      end
  end.

(** The [disabled] attribute of the RUN button. *)
Definition runDisabled (s : ReconStatus) : bool :=
  match s with
  | CONNECTING | FETCHING_HEADERS | PARSING_JSON => true
  | _ => false
  end.

(** A click on RUN: a disabled button does not call its handler. *)
Definition clickRun (m : Machine) : Machine :=
  if runDisabled (status (app m)) then m else executeRecon m.

(** ** The timer queue *)

(** The timer that fires next (the earliest due; among equals, the one set
    first) and the timers that stay. *)
Fixpoint popEarliest (ts : list Timer) : option (Timer * list Timer) :=
  match ts with
  | [] => None
  | t :: rest =>
      match popEarliest rest with
      | None => Some (t, [])
      | Some (t', rest') =>
          if due t <=? due t' then Some (t, rest) else Some (t', t :: rest')
      end
  end.

(** The next timer fires: the clock is at its due instant and its
    continuation runs. *)
Definition fire (w : World) (m : Machine) : Machine :=
  match popEarliest (timers m) with
  | None => m
  | Some (t, rest) =>
      continueRecon w t
        {| app := app m; clock := Z.max (clock m) (due t); timers := rest;
           randoms := randoms m; uuids := uuids m |}
  end.

Fixpoint runTimers (w : World) (fuel : nat) (deadline : Z) (m : Machine)
    : Machine :=
  match fuel with
  | O => m
  | S fuel' =>
      match popEarliest (timers m) with
      | None => m
      | Some (t, _) =>
          if due t <=? deadline then runTimers w fuel' deadline (fire w m)
          else m
      end
  end.

(** The [await]s a suspended run still has before it, its own included. *)
Definition awaitsLeft (k : Await) : nat :=
  match k with
  | AwaitConnect => 3
  | AwaitHeaders => 2
  | AwaitPayload => 1
  end.

Definition pendingWork (ts : list Timer) : nat :=
  fold_right (fun t n => (awaitsLeft (resume t) + n)%nat) 0%nat ts.

Definition setClock (t : Z) (m : Machine) : Machine :=
  {| app := app m; clock := t; timers := timers m;
     randoms := randoms m; uuids := uuids m |}.

(** [dt] milliseconds pass: every timer due by then fires, in order, the
    ones set meanwhile included.  [pendingWork] bounds the number of
    firings (lemma [elapse_settles]). *)
Definition elapse (w : World) (dt : Z) (m : Machine) : Machine :=
  let deadline := clock m + Z.max 0 dt in
  runTimers w (pendingWork (timers m)) deadline m |> setClock deadline.

(** ** What can happen to the component *)

Inductive Event :=
| Input (v : jsstring)       (* typing, or a preset button: [setQuery] *)
| ClickRun                   (* the RUN button *)
| ClearSession               (* [clearSession], called on its own *)
| Elapse (dt : Z).           (* time passes *)

Definition step (w : World) (e : Event) (m : Machine) : Machine :=
  match e with
  | Input v => update (setQuery v) m
  | ClickRun => clickRun m
  | ClearSession => update clearSession m
  | Elapse dt => elapse w dt m
  end.

Definition run (w : World) (es : list Event) (m : Machine) : Machine :=
  fold_left (fun m e => step w e m) es m.

Inductive Reachable (w : World) : Machine -> Prop :=
| reach_boot : forall t0, Reachable w (boot t0)
| reach_step : forall e m, Reachable w m -> Reachable w (step w e m).

(** In the page itself [clearSession] is only called by [executeRecon]:
    the events a user can cause. *)
Definition fromPage (e : Event) : bool :=
  match e with ClearSession => false | _ => true end.

Inductive ReachableFromPage (w : World) : Machine -> Prop :=
| page_boot : forall t0, ReachableFromPage w (boot t0)
| page_step : forall e m,
    fromPage e = true -> ReachableFromPage w m ->
    ReachableFromPage w (step w e m).

(** ** The metric chips *)

Inductive MetricValue := Num (n : Z) | Str (s : jsstring).

Module Metric.
Record t := mk {
  label : jsstring;
  value : MetricValue;
  hint : jsstring;
}.
End Metric.

(** The callback of the [metrics] memo, with the two tables it reads as
    arguments. *)
Definition computeMetrics (connectors : list Connector.t)
    (jobQueue : list JobRecord.t) (encryptedDetections : Z) : list Metric.t := [
  Metric.mk (lit "Allowed Connectors")
    (Num (Z.of_nat (List.length (filter (fun connector => Connector.compliant connector) connectors))))
    (lit "Guardrails enforced");
  Metric.mk (lit "Active Jobs")
    (Num (Z.of_nat (List.length (filter
       (fun job => match JobRecord.status job with
                   | JobRecord.RUNNING | JobRecord.QUEUED => true
                   | _ => false
                   end) jobQueue))))
    (lit "Queue visibility");
  Metric.mk (lit "Encrypted Containers Flagged") (Num encryptedDetections)
    (lit "MEO stays sealed");
  Metric.mk (lit "Simulated Uptime") (Str (lit "99.97%"))
    (lit "All core services online")
].

(** [useMemo(compute, [dep])]: the value of the last render is kept while
    the dependency is the same. *)
Definition useMemo {A : Type} (compute : Z -> A) (dep : Z)
    (cache : option (Z * A)) : A * option (Z * A) :=
  match cache with
  | Some (d, v) =>
      if d =? dep then (v, cache) else (compute dep, Some (dep, compute dep))
  | None => (compute dep, Some (dep, compute dep))
  end.

(** [metrics], as one render computes it. *)
Definition metrics (s : AppState) (cache : option (Z * list Metric.t))
    : list Metric.t * option (Z * list Metric.t) :=
  useMemo (computeMetrics connectors jobQueue) (encryptedDetections s) cache.

(** The values a sequence of renders shows, the memo cell threaded through. *)
Fixpoint renders (states : list AppState) (cache : option (Z * list Metric.t))
    : list (list Metric.t) :=
  match states with
  | [] => []
  | s :: rest =>
      let '(v, cache') := metrics s cache in v :: renders rest cache'
  end.

(** ** Abbreviations of the statements *)

(** The line that [addLog] appends at clock reading [t]. *)
Definition entry (t : Z) (message : jsstring) (type : LogEntry.kind)
    : LogEntry.t :=
  LogEntry.mk (formatTime t) message type.

(** The phase in which a run waits on each of its [await]s. *)
Definition phaseOf (k : Await) : ReconStatus :=
  match k with
  | AwaitConnect => CONNECTING
  | AwaitHeaders => FETCHING_HEADERS
  | AwaitPayload => PARSING_JSON
  end.

(** Between events of the page, either nothing is in flight and no timer
    is set, or one run is in flight and holds the only timer. *)
Definition SingleTimeline (m : Machine) : Prop :=
  (runDisabled (status (app m)) = false /\ timers m = [])
  \/ (exists t, timers m = [t] /\ status (app m) = phaseOf (resume t)).

(** Every profile on display came out of [buildMockProfile]. *)
Definition Generated (w : World) (s : AppState) : Prop :=
  forall p, targetData s = Some p ->
  exists now r u q, buildMockProfile w now r u q = Normal p.

(** A world for the examples: every draw of [Math.random] is one half. *)
Definition sampleWorld : World := {|
  random := fun _ => (1 # 2)%Q;
  randomUUID := fun _ => lit "3b241101-e2bb-4255-8caf-4136c566a962";
|}.

(** ** The progress bar and the preset buttons *)

Definition statusOrder : list ReconStatus :=
  [IDLE; CONNECTING; FETCHING_HEADERS; PARSING_JSON; COMPLETE; ERROR].

Definition ReconStatus_eqb (a b : ReconStatus) : bool :=
  match a, b with
  | IDLE, IDLE | CONNECTING, CONNECTING
  | FETCHING_HEADERS, FETCHING_HEADERS | PARSING_JSON, PARSING_JSON
  | COMPLETE, COMPLETE | ERROR, ERROR => true
  | _, _ => false
  end.

(** [Array.prototype.indexOf]: the first index that holds [x], or [-1]. *)
Fixpoint indexOf {A : Type} (eqb : A -> A -> bool) (l : list A) (x : A) : Z :=
  match l with
  | [] => -1
  | a :: rest =>
      if eqb a x then 0
      else let i := indexOf eqb rest x in if i <? 0 then -1 else i + 1
  end.

(** [progress], the filled share of the bar:
    [statusOrder.indexOf(status) / (statusOrder.length - 1)]. *)
Definition progress (s : ReconStatus) : Q :=
  (inject_Z (indexOf ReconStatus_eqb statusOrder s)
   / inject_Z (Z.of_nat (List.length statusOrder) - 1))%Q.

Module Preset.
Record t := mk {
  label : jsstring;
  username : jsstring;
  note : jsstring;
}.
End Preset.

Definition presetTargets : list Preset.t := [
  Preset.mk (lit "Field Ops") (lit "fieldwatch") (lit "Public field capture streams");
  Preset.mk (lit "Heritage") (lit "archivist") (lit "Open culture imagery");
  Preset.mk (lit "Biodiversity") (lit "flora_fauna") (lit "Species tracking references")
].

(** The kinds of the lines on the console, top to bottom. *)
Definition kinds (m : Machine) : list LogEntry.kind :=
  map LogEntry.type (logs (app m)).

(** A line that no timer writes: the socket line of a click is the only
    one of kind [sys]. *)
Definition notSys (e : LogEntry.t) : Prop := LogEntry.type e <> LogEntry.sys.

(** What the page shows in each phase, as long as [clearSession] is only
    called by [executeRecon]: the lines of the console, whether there is a
    profile and an error message, and the timer that is set. *)
Definition PageShape (m : Machine) : Prop :=
  match status (app m) with
  | IDLE =>
      logs (app m) = [] /\ targetData (app m) = None /\ timers m = []
      /\ encryptedDetections (app m) = 0
  | CONNECTING =>
      kinds m = [LogEntry.sys]
      /\ targetData (app m) = None /\ errorMessage (app m) = []
      /\ exists d q, timers m = [{| due := d; captured := q; resume := AwaitConnect |}]
  | FETCHING_HEADERS =>
      kinds m = [LogEntry.sys; LogEntry.info]
      /\ targetData (app m) = None /\ errorMessage (app m) = []
      /\ exists d q, timers m = [{| due := d; captured := q; resume := AwaitHeaders |}]
  | PARSING_JSON =>
      kinds m = [LogEntry.sys; LogEntry.info; LogEntry.success; LogEntry.info]
      /\ targetData (app m) = None /\ errorMessage (app m) = []
      /\ exists d q, timers m = [{| due := d; captured := q; resume := AwaitPayload |}]
  | COMPLETE =>
      kinds m = [LogEntry.sys; LogEntry.info; LogEntry.success; LogEntry.info;
                 LogEntry.success; LogEntry.warn]
      /\ targetData (app m) <> None /\ timers m = []
  | ERROR =>
      (kinds m = [LogEntry.sys; LogEntry.info; LogEntry.success; LogEntry.error]
       \/ kinds m = [LogEntry.sys; LogEntry.info; LogEntry.success; LogEntry.info;
                     LogEntry.error])
      /\ targetData (app m) = None /\ errorMessage (app m) <> [] /\ timers m = []
  end.

(** The messages of a request for query [q], in the order the source
    writes them, up to the end of the try block. *)
Definition socketLine (q : jsstring) : jsstring :=
  lit "Initializing network socket for " ++ q ++ lit "...".
Definition getLine (q : jsstring) : jsstring :=
  lit "GET /api/v1/profile/" ++ q ++ lit " -> 200 OK".

(** The messages on the console. *)
Definition messages (m : Machine) : list jsstring :=
  map LogEntry.msg (logs (app m)).

(** On the page the console tells the story of one request, the one whose
    timer is set or whose result is on display. *)
Definition PageStory (m : Machine) : Prop :=
  match status (app m) with
  | IDLE => messages m = []
  | CONNECTING =>
      exists d q,
        timers m = [{| due := d; captured := q; resume := AwaitConnect |}]
        /\ messages m = [socketLine q]
  | FETCHING_HEADERS =>
      exists d q,
        timers m = [{| due := d; captured := q; resume := AwaitHeaders |}]
        /\ messages m = [socketLine q; lit "TLS handshake complete."]
  | PARSING_JSON =>
      exists d q,
        timers m = [{| due := d; captured := q; resume := AwaitPayload |}]
        /\ messages m = [socketLine q; lit "TLS handshake complete."; getLine q;
                         lit "Streaming JSON payload..."]
  | COMPLETE =>
      exists p,
        targetData (app m) = Some p
        /\ messages m
           = [socketLine (TargetProfile.username p);
              lit "TLS handshake complete.";
              getLine (TargetProfile.username p);
              lit "Streaming JSON payload...";
              lit "Data object materialized.";
              lit "MEO container detected: AES-256 encrypted. No access without device key."]
  | ERROR =>
      exists q reason,
        messages m = [socketLine q; lit "TLS handshake complete."; getLine q;
                      lit "FATAL: " ++ reason]
        \/ messages m = [socketLine q; lit "TLS handshake complete."; getLine q;
                         lit "Streaming JSON payload..."; lit "FATAL: " ++ reason]
  end.

(** No timer is overdue: each is due at the clock reading or later. *)
Definition Punctual (m : Machine) : Prop :=
  forall t, In t (timers m) -> clock m <= due t.

(** A line whose stamp is the time of day of some clock reading. *)
Definition Stamped (e : LogEntry.t) : Prop :=
  exists c, LogEntry.time e = formatTime c.

Arguments lit : simpl never.
Arguments formatTime : simpl never.
Arguments toISOString : simpl never.
Arguments buildMockProfile : simpl never.
Arguments drawsOfBuild : simpl never.
Arguments trim : simpl never.

(* ================================================================== *)
(** * Properties                                                        *)
(* ================================================================== *)
(* ---- The runtime on known values ---- *)

Example toISOString_epoch :
  toISOString 0 = lit "1970-01-01T00:00:00.000Z".
Proof. vm_compute. reflexivity. Qed.

Example toISOString_2023 :
  toISOString 1700000000123 = lit "2023-11-14T22:13:20.123Z".
Proof. vm_compute. reflexivity. Qed.

Example toISOString_leap_day :
  toISOString 1709251199999 = lit "2024-02-29T23:59:59.999Z".
Proof. vm_compute. reflexivity. Qed.

Example toISOString_before_epoch :
  toISOString (-1) = lit "1969-12-31T23:59:59.999Z".
Proof. vm_compute. reflexivity. Qed.

Example formatTime_2023 : formatTime 1700000000123 = lit "22:13:20.123".
Proof. vm_compute. reflexivity. Qed.

(** ["é 😀/"]: a Latin-1 letter, a space, a surrogate pair and a slash. *)
Example encodeURIComponent_mixed :
  encodeURIComponent [233; 32; 55357; 56832; 47]
  = Normal (lit "%C3%A9%20%F0%9F%98%80%2F").
Proof. vm_compute. reflexivity. Qed.

Example encodeURIComponent_unreserved :
  encodeURIComponent (lit "flora_fauna") = Normal (lit "flora_fauna").
Proof. vm_compute. reflexivity. Qed.

Example encodeURIComponent_lone_surrogate :
  encodeURIComponent [55357; 97] = Throw (lit "URI malformed").
Proof. vm_compute. reflexivity. Qed.

Example trim_inner_space :
  trim (lit "  a b ") = lit "a b".
Proof. vm_compute. reflexivity. Qed.

(* ---- The runtime: trimming, URI encoding, the time of day ---- *)

Lemma trimStart_nil (s : jsstring) :
  trimStart s = [] <-> forallb isWhiteSpace s = true.
Proof.
  induction s as [|c rest IH]; cbn [trimStart forallb].
  - split; reflexivity.
  - destruct (isWhiteSpace c); cbn [andb].
    + exact IH.
    + split; discriminate.
Qed.

Lemma trimStart_whitespace (s : jsstring) :
  forallb isWhiteSpace (trimStart s) = true -> trimStart s = [].
Proof.
  induction s as [|c rest IH]; cbn [trimStart]; [reflexivity|].
  destruct (isWhiteSpace c) eqn:Hc; [exact IH|].
  cbn [forallb]. rewrite Hc. discriminate.
Qed.

Lemma trimStart_suffix (s : jsstring) :
  exists blanks, s = blanks ++ trimStart s /\ forallb isWhiteSpace blanks = true.
Proof.
  induction s as [|c rest [blanks [Heq Hb]]]; cbn [trimStart].
  - exists []. split; reflexivity.
  - destruct (isWhiteSpace c) eqn:Hc.
    + exists (c :: blanks). cbn [Datatypes.app forallb]. rewrite Hc, Hb.
      split; [congruence | reflexivity].
    + exists []. split; reflexivity.
Qed.

Lemma forallb_rev {A} (p : A -> bool) (l : list A) :
  forallb p (rev l) = forallb p l.
Proof.
  induction l as [|a l IH]; [reflexivity|].
  cbn [rev forallb]. rewrite forallb_app, IH. cbn [forallb].
  rewrite andb_true_r. apply andb_comm.
Qed.

(** The trimmed form is empty exactly for the strings made of white space,
    the empty one among them. *)
Lemma trim_empty (s : jsstring) :
  truthy (trim s) = false <-> forallb isWhiteSpace s = true.
Proof.
  unfold trim, trimEnd. split.
  - intros H.
    assert (Hnil : trimStart (rev (trimStart s)) = []).
    { destruct (trimStart (rev (trimStart s))) as [|c l] eqn:E; [reflexivity|].
      cbn [rev] in H. destruct (rev l ++ [c]) eqn:E'; [|discriminate].
      destruct (rev l); discriminate. }
    apply trimStart_nil in Hnil. rewrite forallb_rev in Hnil.
    apply trimStart_whitespace in Hnil. apply trimStart_nil. exact Hnil.
  - intros H. apply trimStart_nil in H. rewrite H. reflexivity.
Qed.

Lemma trim_nonempty (s : jsstring) :
  truthy (trim s) = true <-> forallb isWhiteSpace s = false.
Proof.
  pose proof (trim_empty s) as [H1 H2].
  destruct (truthy (trim s)), (forallb isWhiteSpace s); split; intros; auto;
    try discriminate.
Qed.

(** [encodeURIComponent] throws exactly on the strings that are not well
    formed. *)
Lemma encodeURIComponent_total (s : jsstring) :
  isWellFormed s = true -> exists r, encodeURIComponent s = Normal r.
Proof.
  enough (H : (isWellFormed s = true -> exists r, encodeURIComponent s = Normal r)
              /\ forall c, isWellFormed (c :: s) = true ->
                           exists r, encodeURIComponent (c :: s) = Normal r)
    by apply H.
  induction s as [|d rest [IH1 IH2]].
  - split; [intros _; exists []; reflexivity|].
    intros c. cbn [isWellFormed encodeURIComponent].
    destruct (uriUnreserved c); [intros _; eexists; reflexivity|].
    destruct (isTrailingSurrogate c); [discriminate|].
    destruct (isLeadingSurrogate c); [discriminate|].
    intros _. eexists; reflexivity.
  - split; [apply IH2|].
    intros c Hwf. cbn [isWellFormed] in Hwf.
    change (encodeURIComponent (c :: d :: rest)) with
      (let continue (head : jsstring) (tail : Completion jsstring) :=
         match tail with Normal r => Normal (head ++ r) | Throw e => Throw e end in
       if uriUnreserved c then continue [c] (encodeURIComponent (d :: rest))
       else if isTrailingSurrogate c then Throw uriMalformed
       else if isLeadingSurrogate c then
         if isTrailingSurrogate d
         then continue (percentAll (utf8 (utf16SurrogatePairToCodePoint c d)))
                       (encodeURIComponent rest)
         else Throw uriMalformed
       else continue (percentAll (utf8 c)) (encodeURIComponent (d :: rest))).
    cbv zeta.
    destruct (isTrailingSurrogate c) eqn:Htc.
    + discriminate.
    + destruct (isLeadingSurrogate c) eqn:Hlc.
      * apply andb_prop in Hwf as [Htd Hrest]. rewrite Htd.
        destruct (IH1 Hrest) as [r Hr].
        destruct (uriUnreserved c) eqn:Hu.
        -- exfalso. unfold uriUnreserved, isLeadingSurrogate, inRange in *. lia.
        -- rewrite Hr. eexists; reflexivity.
      * destruct (IH2 d Hwf) as [r Hr]. rewrite Hr.
        destruct (uriUnreserved c); eexists; reflexivity.
Qed.

Lemma digits_range (width : nat) (n c : Z) :
  In c (digits width n) -> 48 <= c <= 57.
Proof.
  revert n. induction width as [|w IH]; intros n; cbn [digits]; [intros []|].
  rewrite in_app_iff. intros [H | [H | []]]; [eapply IH; eassumption|].
  pose proof (Z.mod_pos_bound n 10). lia.
Qed.

Lemma split_without (sep : Z) (s : jsstring) :
  ~ In sep s -> split sep s = [s].
Proof.
  induction s as [|c rest IH]; cbn [split]; [reflexivity|].
  intros Hn. rewrite IH by (intros H; apply Hn; right; exact H).
  destruct (Z.eqb_spec c sep) as [->|_]; [|reflexivity].
  exfalso. apply Hn. left. reflexivity.
Qed.

Lemma split_at (sep : Z) (a b : jsstring) :
  ~ In sep a -> ~ In sep b -> split sep (a ++ sep :: b) = [a; b].
Proof.
  intros Ha Hb. induction a as [|c rest IH]; cbn [Datatypes.app split].
  - rewrite split_without by assumption. rewrite Z.eqb_refl. reflexivity.
  - rewrite IH by (intros H; apply Ha; right; exact H).
    destruct (Z.eqb_spec c sep) as [->|_]; [|reflexivity].
    exfalso. apply Ha. left. reflexivity.
Qed.

Lemma isoDate_no_T (t : Z) : ~ In 84 (isoDate t).
Proof.
  unfold isoDate. destruct (civilFromDays (t / msPerDay)) as [[y m] d].
  unfold isoYear.
  repeat rewrite in_app_iff.
  assert (Hd : forall w n, ~ In 84 (digits w n)).
  { intros w n H. apply digits_range in H. lia. }
  intros H.
  assert (Hdash : ~ In 84 (lit "-")) by (vm_compute; intuition discriminate).
  assert (Hplus : ~ In 84 (lit "+")) by (vm_compute; intuition discriminate).
  destruct ((0 <=? y) && (y <=? 9999)), (y <? 0);
    repeat rewrite in_app_iff in H;
    repeat match goal with
           | H : _ \/ _ |- _ => destruct H
           | H : In 84 (digits _ _) |- _ => exact (Hd _ _ H)
           end; auto.
Qed.

Lemma isoTime_no_T (t : Z) : ~ In 84 (isoTime t ++ lit "Z").
Proof.
  unfold isoTime.
  assert (Hd : forall w n, ~ In 84 (digits w n)).
  { intros w n H. apply digits_range in H. lia. }
  assert (Hc : ~ In 84 (lit ":")) by (vm_compute; intuition discriminate).
  assert (Hp : ~ In 84 (lit ".")) by (vm_compute; intuition discriminate).
  assert (Hz : ~ In 84 (lit "Z")) by (vm_compute; intuition discriminate).
  intros H. repeat rewrite in_app_iff in H.
  repeat match goal with
         | H : _ \/ _ |- _ => destruct H
         | H : In 84 (digits _ _) |- _ => exact (Hd _ _ H)
         end; auto.
Qed.

(** The indexing in [formatTime] always finds its piece: the result is the
    time of day of the ISO form. *)
Lemma formatTime_isoTime (now : Z) : formatTime now = isoTime now.
Proof.
  unfold formatTime, toISOString.
  change (lit "T" ++ isoTime now ++ lit "Z") with (84 :: (isoTime now ++ lit "Z")).
  rewrite split_at by (apply isoDate_no_T || apply isoTime_no_T).
  cbn [nth]. unfold sliceButLast.
  change (lit "Z") with [90]. apply removelast_last.
Qed.

(* ---- The timer queue ---- *)

Lemma popEarliest_none (ts : list Timer) :
  popEarliest ts = None -> ts = [].
Proof.
  destruct ts as [|t rest]; [reflexivity|]. cbn [popEarliest].
  destruct (popEarliest rest) as [[t' rest']|]; [|discriminate].
  destruct (due t <=? due t'); discriminate.
Qed.

Lemma popEarliest_earliest (ts : list Timer) (t : Timer) (rest : list Timer) :
  popEarliest ts = Some (t, rest) ->
  forall t', In t' ts -> due t <= due t'.
Proof.
  revert t rest. induction ts as [|a ts IH]; intros t rest; cbn [popEarliest].
  - discriminate.
  - destruct (popEarliest ts) as [[b rest']|] eqn:Hp.
    + specialize (IH b rest' eq_refl).
      destruct (Z.leb_spec (due a) (due b)); intros [= <- <-] t' [<- | Hin];
        try lia; specialize (IH t' Hin); lia.
    + apply popEarliest_none in Hp. subst ts.
      intros [= <- <-] t' [<- | []]. lia.
Qed.

Lemma pendingWork_app (ts us : list Timer) :
  pendingWork (ts ++ us) = (pendingWork ts + pendingWork us)%nat.
Proof.
  induction ts as [|t ts IH]; cbn [Datatypes.app pendingWork fold_right];
    [reflexivity|].
  fold (pendingWork (ts ++ us)). fold (pendingWork ts). rewrite IH. lia.
Qed.

Lemma popEarliest_work (ts : list Timer) (t : Timer) (rest : list Timer) :
  popEarliest ts = Some (t, rest) ->
  pendingWork ts = (awaitsLeft (resume t) + pendingWork rest)%nat.
Proof.
  revert t rest. induction ts as [|a ts IH]; intros t rest; cbn [popEarliest].
  - discriminate.
  - change (pendingWork (a :: ts)) with (awaitsLeft (resume a) + pendingWork ts)%nat.
    destruct (popEarliest ts) as [[b rest']|] eqn:Hp.
    + specialize (IH b rest' eq_refl).
      destruct (due a <=? due b); intros [= <- <-]; [reflexivity|].
      change (pendingWork (a :: rest'))
        with (awaitsLeft (resume a) + pendingWork rest')%nat.
      lia.
    + apply popEarliest_none in Hp. subst ts. intros [= <- <-]. reflexivity.
Qed.

Lemma continueRecon_work (w : World) (t : Timer) (m : Machine) :
  (S (pendingWork (timers (continueRecon w t m)))
   <= awaitsLeft (resume t) + pendingWork (timers m))%nat.
Proof.
  unfold continueRecon.
  destruct (resume t); cbn [awaitsLeft].
  - unfold setTimeout, update. cbn [timers]. rewrite pendingWork_app.
    cbn [pendingWork fold_right resume awaitsLeft]. lia.
  - destruct (Z.of_nat (Datatypes.length (captured t)) <? 3).
    + unfold catchBlock, update. cbn [timers]. lia.
    + unfold setTimeout, update. cbn [timers]. rewrite pendingWork_app.
      cbn [pendingWork fold_right resume awaitsLeft]. lia.
  - destruct (buildMockProfile w (clock m) (randoms m) (uuids m) (captured t));
      unfold catchBlock, update, drawn; cbn [timers]; lia.
Qed.

Lemma fire_work (w : World) (m : Machine) (t : Timer) (rest : list Timer) :
  popEarliest (timers m) = Some (t, rest) ->
  (S (pendingWork (timers (fire w m))) <= pendingWork (timers m))%nat.
Proof.
  intros Hp. unfold fire. rewrite Hp.
  rewrite (popEarliest_work _ _ _ Hp).
  match goal with |- (S (pendingWork (timers (continueRecon w t ?m'))) <= _)%nat =>
    pose proof (continueRecon_work w t m') as H end.
  cbn [timers] in H. exact H.
Qed.

(** The fuel [elapse] gives is enough: when it returns, no timer that was
    due by the deadline is left. *)
Lemma runTimers_settles (w : World) (deadline : Z) (fuel : nat) (m : Machine) :
  (pendingWork (timers m) <= fuel)%nat ->
  forall t, In t (timers (runTimers w fuel deadline m)) -> deadline < due t.
Proof.
  revert m. induction fuel as [|fuel IH]; intros m Hfuel t; cbn [runTimers].
  - destruct (timers m) as [|a ts] eqn:Hts; [intros []|].
    exfalso. cbn [pendingWork fold_right] in Hfuel.
    destruct (resume a); cbn [awaitsLeft] in Hfuel; lia.
  - destruct (popEarliest (timers m)) as [[a rest]|] eqn:Hp.
    + destruct (Z.leb_spec (due a) deadline) as [Hle|Hgt].
      * apply IH. pose proof (fire_work w m a rest Hp). lia.
      * intros Hin. pose proof (popEarliest_earliest _ _ _ Hp t Hin). lia.
    + apply popEarliest_none in Hp. rewrite Hp. intros [].
Qed.

Lemma elapse_settles (w : World) (dt : Z) (m : Machine) :
  forall t, In t (timers (elapse w dt m)) -> clock (elapse w dt m) < due t.
Proof.
  intros t. unfold elapse, setClock. cbn [timers clock].
  apply runTimers_settles. apply Nat.le_refl.
Qed.

(* ---- One request, from the click to its terminal phase ---- *)

Lemma fire_one w a c t rn un :
  c <= due t ->
  fire w {| app := a; clock := c; timers := [t]; randoms := rn; uuids := un |}
  = continueRecon w t
      {| app := a; clock := due t; timers := []; randoms := rn; uuids := un |}.
Proof.
  intros Hc. unfold fire. cbn [timers popEarliest app clock randoms uuids].
  rewrite Z.max_r by lia. reflexivity.
Qed.

Lemma runTimers_one w fuel deadline a c t rn un :
  c <= due t -> due t <= deadline ->
  runTimers w (S fuel) deadline
    {| app := a; clock := c; timers := [t]; randoms := rn; uuids := un |}
  = runTimers w fuel deadline
      (continueRecon w t
         {| app := a; clock := due t; timers := []; randoms := rn; uuids := un |}).
Proof.
  intros Hc Hd. cbn [runTimers timers popEarliest].
  apply Z.leb_le in Hd. rewrite Hd. rewrite fire_one by assumption. reflexivity.
Qed.

Lemma runTimers_idle w fuel deadline m :
  timers m = [] -> runTimers w fuel deadline m = m.
Proof. intros H. destruct fuel; cbn [runTimers]; [|rewrite H]; reflexivity. Qed.

Lemma executeRecon_rejects m :
  truthy (trim (query (app m))) = false ->
  executeRecon m =
  update (setErrorMessage (lit "Enter a username to start reconnaissance.")) m.
Proof. intros Hq. unfold executeRecon. rewrite Hq. reflexivity. Qed.

Lemma executeRecon_accepts m :
  truthy (trim (query (app m))) = true ->
  executeRecon m =
  {| app := app m |> clearSession |> setStatus CONNECTING
              |> addLog (clock m)
                   (lit "Initializing network socket for " ++ query (app m) ++ lit "...")
                   LogEntry.sys;
     clock := clock m;
     timers := timers m ++ [{| due := clock m + 500; captured := query (app m);
                               resume := AwaitConnect |}];
     randoms := randoms m; uuids := uuids m |}.
Proof. intros Hq. unfold executeRecon. rewrite Hq. reflexivity. Qed.

Ltac unfold_stage :=
  unfold continueRecon, catchBlock, setTimeout, update, drawn;
  cbn [resume captured due app clock timers randoms uuids Datatypes.app].

(** A request whose query is shorter than three code units: the machine
    one second after the click. *)
Lemma timeline_short w m deadline :
  timers m = [] ->
  truthy (trim (query (app m))) = true ->
  Z.of_nat (List.length (query (app m))) < 3 ->
  clock m + 1000 <= deadline ->
  runTimers w 3 deadline (executeRecon m) =
  let q := query (app m) in
  let t := clock m in
  {| app := {| query := q; status := ERROR;
               logs := [entry t (lit "Initializing network socket for " ++ q ++ lit "...") LogEntry.sys;
                        entry (t + 500) (lit "TLS handshake complete.") LogEntry.info;
                        entry (t + 1000) (lit "GET /api/v1/profile/" ++ q ++ lit " -> 200 OK") LogEntry.success;
                        entry (t + 1000) (lit "FATAL: " ++ lit "Username too short (HTTP 400)") LogEntry.error];
               targetData := None;
               errorMessage := lit "Username too short (HTTP 400)";
               encryptedDetections := encryptedDetections (app m) |};
     clock := t + 1000; timers := []; randoms := randoms m; uuids := uuids m |}.
Proof.
  intros Ht Hq Hlen Hd.
  rewrite executeRecon_accepts by assumption. rewrite Ht. cbn [Datatypes.app].
  rewrite runTimers_one by (cbn [due]; lia). unfold_stage.
  rewrite runTimers_one by (cbn [due]; lia). unfold_stage.
  apply Z.ltb_lt in Hlen. rewrite Hlen.
  rewrite runTimers_idle by reflexivity.
  replace (clock m + 500 + 500) with (clock m + 1000) by lia.
  reflexivity.
Qed.

(** A request whose query has three code units or more: the machine 1.6
    seconds after the click, by what [buildMockProfile] evaluates to. *)
Lemma timeline_long w m deadline :
  timers m = [] ->
  truthy (trim (query (app m))) = true ->
  3 <= Z.of_nat (List.length (query (app m))) ->
  clock m + 1600 <= deadline ->
  runTimers w 3 deadline (executeRecon m) =
  let q := query (app m) in
  let t := clock m in
  let early :=
    [entry t (lit "Initializing network socket for " ++ q ++ lit "...") LogEntry.sys;
     entry (t + 500) (lit "TLS handshake complete.") LogEntry.info;
     entry (t + 1000) (lit "GET /api/v1/profile/" ++ q ++ lit " -> 200 OK") LogEntry.success;
     entry (t + 1000) (lit "Streaming JSON payload...") LogEntry.info] in
  match buildMockProfile w (t + 1600) (randoms m) (uuids m) q with
  | Normal profile =>
    {| app := {| query := q; status := COMPLETE;
               logs := early ++
                 [entry (t + 1600) (lit "Data object materialized.") LogEntry.success;
                  entry (t + 1600) (lit "MEO container detected: AES-256 encrypted. No access without device key.") LogEntry.warn];
               targetData := Some profile;
               errorMessage := [];
               encryptedDetections := encryptedDetections (app m) + 1 |};
       clock := t + 1600; timers := [];
       randoms := (randoms m + drawsOfBuild q)%nat; uuids := (uuids m + 1)%nat |}
  | Throw reason =>
    {| app := {| query := q; status := ERROR;
               logs := early ++ [entry (t + 1600) (lit "FATAL: " ++ reason) LogEntry.error];
               targetData := None;
               errorMessage := reason;
               encryptedDetections := encryptedDetections (app m) |};
       clock := t + 1600; timers := [];
       randoms := (randoms m + drawsOfBuild q)%nat; uuids := (uuids m + 1)%nat |}
  end.
Proof.
  intros Ht Hq Hlen Hd.
  rewrite executeRecon_accepts by assumption. rewrite Ht. cbn [Datatypes.app].
  rewrite runTimers_one by (cbn [due]; lia). unfold_stage.
  rewrite runTimers_one by (cbn [due]; lia). unfold_stage.
  apply Z.ltb_ge in Hlen. rewrite Hlen.
  unfold_stage.
  rewrite runTimers_one by (cbn [due]; lia). unfold_stage.
  replace (clock m + 500 + 500) with (clock m + 1000) by lia.
  replace (clock m + 1000 + 600) with (clock m + 1600) by lia.
  cbv zeta.
  destruct (buildMockProfile w (clock m + 1600) (randoms m) (uuids m) (query (app m)));
    reflexivity.
Qed.

(** A click on an enabled RUN button with an accepted query, then [dt]
    milliseconds: the three timers of the request are all that [elapse]
    has to run. *)
Lemma request_elapse w m dt :
  timers m = [] ->
  runDisabled (status (app m)) = false ->
  truthy (trim (query (app m))) = true ->
  run w [ClickRun; Elapse dt] m =
  setClock (clock m + Z.max 0 dt)
    (runTimers w 3 (clock m + Z.max 0 dt) (executeRecon m)).
Proof.
  intros Ht Hs Hq. cbn [run fold_left step]. unfold clickRun. rewrite Hs.
  assert (Hc : clock (executeRecon m) = clock m)
    by (rewrite executeRecon_accepts by assumption; reflexivity).
  assert (Hw : pendingWork (timers (executeRecon m)) = 3%nat)
    by (rewrite executeRecon_accepts by assumption; cbn [timers];
        rewrite Ht; reflexivity).
  unfold elapse. rewrite Hc, Hw. reflexivity.
Qed.

(* ---- Invariants of the reachable states ---- *)

Lemma run_reachable w es m : Reachable w m -> Reachable w (run w es m).
Proof.
  revert m. induction es as [|e es IH]; intros m Hm; cbn [run fold_left].
  - exact Hm.
  - apply IH. apply reach_step. exact Hm.
Qed.

Lemma continueRecon_generated w t m :
  Generated w (app m) -> Generated w (app (continueRecon w t m)).
Proof.
  intros Hg p. unfold continueRecon.
  destruct (resume t).
  - cbn. apply Hg.
  - destruct (Z.of_nat (Datatypes.length (captured t)) <? 3); cbn; apply Hg.
  - destruct (buildMockProfile w (clock m) (randoms m) (uuids m) (captured t))
      as [profile|reason] eqn:Hb; cbn.
    + intros [= <-]. eauto.
    + apply Hg.
Qed.

Lemma fire_generated w m : Generated w (app m) -> Generated w (app (fire w m)).
Proof.
  intros Hg. unfold fire.
  destruct (popEarliest (timers m)) as [[t rest]|]; [|exact Hg].
  apply continueRecon_generated. exact Hg.
Qed.

Lemma runTimers_generated w fuel deadline m :
  Generated w (app m) -> Generated w (app (runTimers w fuel deadline m)).
Proof.
  revert m. induction fuel as [|fuel IH]; intros m Hg; cbn [runTimers];
    [exact Hg|].
  destruct (popEarliest (timers m)) as [[t rest]|]; [|exact Hg].
  destruct (due t <=? deadline); [|exact Hg].
  apply IH. apply fire_generated. exact Hg.
Qed.

Lemma step_generated w e m :
  Generated w (app m) -> Generated w (app (step w e m)).
Proof.
  intros Hg. destruct e as [v| | |dt]; cbn [step].
  - exact Hg.
  - unfold clickRun. destruct (runDisabled (status (app m))); [exact Hg|].
    unfold executeRecon. destruct (negb (truthy (trim (query (app m))))).
    + exact Hg.
    + intros p. cbn. discriminate.
  - intros p. cbn. discriminate.
  - unfold elapse, setClock. cbn [app].
    apply runTimers_generated. exact Hg.
Qed.

Lemma reachable_generated w m : Reachable w m -> Generated w (app m).
Proof.
  induction 1 as [t0|e m _ IH].
  - intros p. cbn. discriminate.
  - apply step_generated. exact IH.
Qed.

Lemma continueRecon_single w t a c rn un :
  SingleTimeline
    (continueRecon w t
       {| app := a; clock := c; timers := []; randoms := rn; uuids := un |}).
Proof.
  unfold continueRecon. destruct (resume t).
  - right. eexists. split; reflexivity.
  - cbn [captured].
    destruct (Z.of_nat (Datatypes.length (captured t)) <? 3).
    + left. split; reflexivity.
    + right. eexists. split; reflexivity.
  - cbn [clock randoms uuids].
    destruct (buildMockProfile w c rn un (captured t)); left; split; reflexivity.
Qed.

Lemma fire_single w m : SingleTimeline m -> SingleTimeline (fire w m).
Proof.
  intros [[Hs Ht] | [t [Ht Hs]]]; unfold fire; rewrite Ht; cbn [popEarliest].
  - left. split; assumption.
  - apply continueRecon_single.
Qed.

Lemma runTimers_single w fuel deadline m :
  SingleTimeline m -> SingleTimeline (runTimers w fuel deadline m).
Proof.
  revert m. induction fuel as [|fuel IH]; intros m Hm; cbn [runTimers];
    [exact Hm|].
  destruct (popEarliest (timers m)) as [[t rest]|]; [|exact Hm].
  destruct (due t <=? deadline); [|exact Hm].
  apply IH. apply fire_single. exact Hm.
Qed.

Lemma step_single w e m :
  fromPage e = true -> SingleTimeline m -> SingleTimeline (step w e m).
Proof.
  intros He Hm. destruct e as [v| | |dt]; cbn [step]; try discriminate.
  - exact Hm.
  - unfold clickRun.
    destruct (runDisabled (status (app m))) eqn:Hs; [exact Hm|].
    destruct Hm as [[_ Ht] | [t [_ Hp]]].
    + unfold executeRecon. destruct (negb (truthy (trim (query (app m))))).
      * left. split; assumption.
      * right. unfold setTimeout, update. cbn [timers app]. rewrite Ht.
        eexists. split; reflexivity.
    + rewrite Hp in Hs. destruct (resume t); discriminate.
  - unfold elapse.
    pose proof (runTimers_single w (pendingWork (timers m))
                  (clock m + Z.max 0 dt) m Hm) as H.
    exact H.
Qed.

(** X1: On the page at most one request is in flight: a timer is set exactly
    while the RUN button is disabled, and it is the only one. *)
Lemma page_single_timeline w m :
  ReachableFromPage w m -> SingleTimeline m.
Proof.
  induction 1 as [t0|e m He _ IH].
  - left. split; reflexivity.
  - apply step_single; assumption.
Qed.

(* ---- The request state machine ---- *)

(** X8: A query of one or two code units that is not blank: the request ends
    in [ERROR] a second after the click, and the console shows four
    lines, the ["200 OK"] of the fetch among them. *)
Lemma short_query_outcome w m dt :
  timers m = [] ->
  runDisabled (status (app m)) = false ->
  truthy (trim (query (app m))) = true ->
  Z.of_nat (List.length (query (app m))) < 3 ->
  1000 <= dt ->
  let q := query (app m) in
  let t := clock m in
  let m' := run w [ClickRun; Elapse dt] m in
  status (app m') = ERROR
  /\ targetData (app m') = None
  /\ errorMessage (app m') = lit "Username too short (HTTP 400)"
  /\ encryptedDetections (app m') = encryptedDetections (app m)
  /\ timers m' = []
  /\ logs (app m') =
       [entry t (lit "Initializing network socket for " ++ q ++ lit "...") LogEntry.sys;
        entry (t + 500) (lit "TLS handshake complete.") LogEntry.info;
        entry (t + 1000) (lit "GET /api/v1/profile/" ++ q ++ lit " -> 200 OK") LogEntry.success;
        entry (t + 1000) (lit "FATAL: Username too short (HTTP 400)") LogEntry.error].
Proof.
  intros Ht Hs Hq Hlen Hdt. cbv zeta.
  rewrite request_elapse by assumption.
  rewrite timeline_short by (assumption || lia).
  cbv zeta. unfold setClock. cbn [app status targetData errorMessage
                                  encryptedDetections timers logs].
  repeat split.
Qed.

(** C1, on the code: for the query ["ab"] the run ends in [ERROR] with no
    profile and the message ["Username too short (HTTP 400)"], but the
    console holds four lines, of kinds sys, info, success, error: the
    line ["GET /api/v1/profile/ab -> 200 OK"] is written before the length
    of the query is looked at. *)
Theorem short_query_ab_logs_four_lines :
  let m := run sampleWorld [Input (lit "ab"); ClickRun; Elapse 1600] (boot 0) in
  status (app m) = ERROR
  /\ targetData (app m) = None
  /\ errorMessage (app m) = lit "Username too short (HTTP 400)"
  /\ map (fun e => (LogEntry.type e, LogEntry.msg e)) (logs (app m)) =
       [(LogEntry.sys, lit "Initializing network socket for ab...");
        (LogEntry.info, lit "TLS handshake complete.");
        (LogEntry.success, lit "GET /api/v1/profile/ab -> 200 OK");
        (LogEntry.error, lit "FATAL: Username too short (HTTP 400)")].
Proof. vm_compute. repeat split. Qed.

(** C3: while the phase is [CONNECTING], [FETCHING_HEADERS] or
    [PARSING_JSON] a click on RUN is a no-op: the button is disabled, so the
    whole machine stays as it is, with no change of phase, no line on the
    console and no timer set. *)
Theorem clickRun_in_flight_ignored w m :
  status (app m) = CONNECTING \/ status (app m) = FETCHING_HEADERS
  \/ status (app m) = PARSING_JSON ->
  step w ClickRun m = m.
Proof.
  intros H. cbn [step]. unfold clickRun.
  destruct H as [-> | [-> | ->]]; reflexivity.
Qed.

Lemma clickRun_in_flight_ignored_witness :
  let m := run sampleWorld [Input (lit "alice"); ClickRun; Elapse 700] (boot 0) in
  status (app m) = FETCHING_HEADERS /\ step sampleWorld ClickRun m = m.
Proof.
  cbv zeta. split; [vm_compute; reflexivity|].
  apply clickRun_in_flight_ignored. right. left. vm_compute. reflexivity.
Defined.

(** C4, as the claim has it, fails on the count: for ["alice"] the run ends
    in [COMPLETE] with six lines on the console, not five. *)
Lemma alice_console_has_six_lines :
  let m := run sampleWorld [Input (lit "alice"); ClickRun; Elapse 1600] (boot 0) in
  status (app m) = COMPLETE
  /\ List.length (logs (app m)) = 6%nat
  /\ List.length (logs (app m)) <> 5%nat.
Proof. vm_compute. repeat split. discriminate. Qed.

(** C4, amended: for every query of three code units or more that is not
    blank and has no lone surrogate, a request started with nothing else in
    flight ends 1.6 seconds after the click in [COMPLETE], with a profile
    whose [username] is the query and whose [meoContainer] is [LOCKED], and
    with six lines on the console, of kinds sys, info, success, info,
    success, warn. *)
Theorem long_query_completes w m dt :
  timers m = [] ->
  runDisabled (status (app m)) = false ->
  truthy (trim (query (app m))) = true ->
  isWellFormed (query (app m)) = true ->
  3 <= Z.of_nat (List.length (query (app m))) ->
  1600 <= dt ->
  let m' := run w [ClickRun; Elapse dt] m in
  status (app m') = COMPLETE
  /\ (exists p, targetData (app m') = Some p
        /\ TargetProfile.username p = query (app m)
        /\ Security.meoContainer (TargetProfile.security p) = LOCKED)
  /\ List.length (logs (app m')) = 6%nat
  /\ map LogEntry.type (logs (app m'))
     = [LogEntry.sys; LogEntry.info; LogEntry.success; LogEntry.info;
        LogEntry.success; LogEntry.warn].
Proof.
  intros Ht Hs Hq Hwf Hlen Hdt. cbv zeta.
  rewrite request_elapse by assumption.
  rewrite timeline_long by (assumption || lia). cbv zeta.
  destruct (encodeURIComponent_total _ Hwf) as [seed Hseed].
  unfold buildMockProfile. rewrite Hseed.
  unfold setClock. cbn [app status targetData logs].
  repeat split. eexists. repeat split.
Qed.

Lemma long_query_completes_witness :
  let m := step sampleWorld (Input (lit "alice")) (boot 0) in
  let m' := run sampleWorld [ClickRun; Elapse 1600] m in
  status (app m') = COMPLETE
  /\ (exists p, targetData (app m') = Some p
        /\ TargetProfile.username p = query (app m)
        /\ Security.meoContainer (TargetProfile.security p) = LOCKED)
  /\ List.length (logs (app m')) = 6%nat
  /\ map LogEntry.type (logs (app m'))
     = [LogEntry.sys; LogEntry.info; LogEntry.success; LogEntry.info;
        LogEntry.success; LogEntry.warn].
Proof.
  apply (long_query_completes sampleWorld
           (step sampleWorld (Input (lit "alice")) (boot 0)) 1600);
    try reflexivity; vm_compute; discriminate.
Defined.

(** The two conditions that C4 leaves out: a blank query is not started,
    however long it is, and a query with a lone surrogate ends in [ERROR],
    since [encodeURIComponent] throws on it. *)
Example blank_query_of_three_is_not_started :
  let m := run sampleWorld [Input (lit "   "); ClickRun; Elapse 1600] (boot 0) in
  status (app m) = IDLE /\ logs (app m) = [].
Proof. vm_compute. split; reflexivity. Qed.

Example lone_surrogate_ends_in_error :
  let m := run sampleWorld [Input [55357; 97; 98]; ClickRun; Elapse 1600] (boot 0) in
  status (app m) = ERROR /\ errorMessage (app m) = lit "URI malformed"
  /\ targetData (app m) = None.
Proof. vm_compute. repeat split. Qed.

(** C5: a query that is empty or made of white space only is turned down
    at once: [executeRecon] returns with nothing changed but the error
    message, which reads ["Enter a username to start reconnaissance."]; the
    phase stays as it was ([IDLE] stays [IDLE]), no line is written on the
    console and no timer is set. *)
Theorem blank_query_rejected w m :
  forallb isWhiteSpace (query (app m)) = true ->
  runDisabled (status (app m)) = false ->
  let m' := step w ClickRun m in
  m' = update (setErrorMessage (lit "Enter a username to start reconnaissance.")) m
  /\ status (app m') = status (app m)
  /\ logs (app m') = logs (app m)
  /\ targetData (app m') = targetData (app m)
  /\ encryptedDetections (app m') = encryptedDetections (app m)
  /\ timers m' = timers m
  /\ errorMessage (app m') = lit "Enter a username to start reconnaissance.".
Proof.
  intros Hblank Hs. apply trim_empty in Hblank.
  cbv zeta. cbn [step]. unfold clickRun. rewrite Hs.
  rewrite executeRecon_rejects by assumption.
  repeat split.
Qed.

Lemma blank_query_rejected_witness :
  let m := step sampleWorld (Input (lit "  ")) (boot 0) in
  let m' := step sampleWorld ClickRun m in
  status (app m') = IDLE /\ logs (app m') = [] /\ timers m' = []
  /\ errorMessage (app m') = lit "Enter a username to start reconnaissance.".
Proof.
  cbv zeta.
  destruct (blank_query_rejected sampleWorld
              (step sampleWorld (Input (lit "  ")) (boot 0)))
    as (_ & Hs & Hl & _ & _ & Ht & He); [reflexivity | reflexivity |].
  rewrite Hs, Hl, Ht, He. repeat split.
Defined.

(** Any accepted request that runs alone reaches [COMPLETE] or [ERROR]
    within 1.6 seconds. *)
Lemma request_outcome w m dt :
  timers m = [] ->
  runDisabled (status (app m)) = false ->
  truthy (trim (query (app m))) = true ->
  1600 <= dt ->
  let m' := run w [ClickRun; Elapse dt] m in
  timers m' = []
  /\ ((status (app m') = COMPLETE
       /\ encryptedDetections (app m') = encryptedDetections (app m) + 1)
      \/ (status (app m') = ERROR
          /\ encryptedDetections (app m') = encryptedDetections (app m))).
Proof.
  intros Ht Hs Hq Hdt. cbv zeta.
  rewrite request_elapse by assumption.
  destruct (Z.ltb_spec (Z.of_nat (List.length (query (app m)))) 3) as [Hlen|Hlen].
  - rewrite timeline_short by (assumption || lia).
    cbv zeta. split; [reflexivity|]. right. split; reflexivity.
  - rewrite timeline_long by (assumption || lia). cbv zeta.
    destruct (buildMockProfile w (clock m + 1600) (randoms m) (uuids m)
                (query (app m))).
    + split; [reflexivity|]. left. split; reflexivity.
    + split; [reflexivity|]. right. split; reflexivity.
Qed.

(** C6: the counter [encryptedDetections] goes up by exactly one when a
    request reaches [COMPLETE] and stays as it is when a request reaches
    [ERROR]: for a request that runs alone, and timer by timer whatever
    else is in flight; [clearSession] empties the console, the profile and
    the error message, sets the phase to [IDLE] and leaves the counter as
    it is. *)
Theorem detections_counter w m dt :
  (timers m = [] ->
   runDisabled (status (app m)) = false ->
   truthy (trim (query (app m))) = true ->
   1600 <= dt ->
   let m' := run w [ClickRun; Elapse dt] m in
   (status (app m') = COMPLETE
    /\ encryptedDetections (app m') = encryptedDetections (app m) + 1)
   \/ (status (app m') = ERROR
       /\ encryptedDetections (app m') = encryptedDetections (app m)))
  /\ (forall t rest, popEarliest (timers m) = Some (t, rest) ->
      let m' := fire w m in
      encryptedDetections (app m')
      = encryptedDetections (app m)
        + match status (app m') with COMPLETE => 1 | _ => 0 end)
  /\ (let m' := step w ClearSession m in
      logs (app m') = [] /\ targetData (app m') = None
      /\ errorMessage (app m') = [] /\ status (app m') = IDLE
      /\ encryptedDetections (app m') = encryptedDetections (app m)).
Proof.
  split; [|split].
  - intros Ht Hs Hq Hdt. apply request_outcome; assumption.
  - intros t rest Hp. cbv zeta. unfold fire. rewrite Hp.
    unfold continueRecon. cbn [clock randoms uuids].
    destruct (resume t).
    + cbn. lia.
    + destruct (Z.of_nat (Datatypes.length (captured t)) <? 3); cbn; lia.
    + destruct (buildMockProfile _ _ _ _ _); cbn; lia.
  - cbv zeta. cbn [step]. repeat split.
Qed.

Lemma detections_counter_witness :
  let m := step sampleWorld (Input (lit "alice")) (boot 0) in
  let m' := run sampleWorld [ClickRun; Elapse 1600] m in
  status (app m') = COMPLETE /\ encryptedDetections (app m') = 1.
Proof.
  cbv zeta.
  destruct (detections_counter sampleWorld
              (step sampleWorld (Input (lit "alice")) (boot 0)) 1600)
    as [H _].
  destruct H as [[Hs Hc] | [Hs _]];
    [reflexivity | reflexivity | reflexivity | lia | | ].
  - split; [exact Hs | rewrite Hc; reflexivity].
  - vm_compute in Hs. discriminate Hs.
Defined.

(* ---- The profile generator ---- *)

(** C7: whatever the username, the profile that [buildMockProfile] builds
    has [encryptionLevel] ['AES-256'] and [meoContainer] ['LOCKED'], and in
    no reachable state of the machine is there a profile whose
    [meoContainer] is ['EXPOSED']. *)
Theorem sealed_container_locked w :
  (forall now r u username p,
     buildMockProfile w now r u username = Normal p ->
     Security.encryptionLevel (TargetProfile.security p) = AES_256
     /\ Security.meoContainer (TargetProfile.security p) = LOCKED)
  /\ (forall m p,
        Reachable w m -> targetData (app m) = Some p ->
        Security.meoContainer (TargetProfile.security p) = LOCKED
        /\ Security.meoContainer (TargetProfile.security p) <> EXPOSED).
Proof.
  assert (Hgen : forall now r u username p,
             buildMockProfile w now r u username = Normal p ->
             Security.encryptionLevel (TargetProfile.security p) = AES_256
             /\ Security.meoContainer (TargetProfile.security p) = LOCKED).
  { intros now r u username p. unfold buildMockProfile.
    destruct (encodeURIComponent username); [|discriminate].
    intros [= <-]. split; reflexivity. }
  split; [exact Hgen|].
  intros m p Hm Hp.
  destruct (reachable_generated w m Hm p Hp) as (now & r & u & q & Hb).
  destruct (Hgen _ _ _ _ _ Hb) as [_ Hl]. rewrite Hl.
  split; [reflexivity | discriminate].
Qed.

Lemma sealed_container_locked_witness :
  let m := run sampleWorld [Input (lit "alice"); ClickRun; Elapse 1600] (boot 0) in
  match targetData (app m) with
  | Some p => Security.meoContainer (TargetProfile.security p) = LOCKED
  | None => False
  end.
Proof.
  cbv zeta.
  destruct (targetData (app (run sampleWorld
              [Input (lit "alice"); ClickRun; Elapse 1600] (boot 0))))
    as [p|] eqn:Hp.
  - apply (proj2 (sealed_container_locked sampleWorld) _ p
             (run_reachable sampleWorld _ _ (reach_boot sampleWorld 0)) Hp).
  - vm_compute in Hp. discriminate Hp.
Defined.

(** C9: the avatar reference is a function of the username alone: two
    calls of [buildMockProfile] on the same username give the same
    [avatarUrl], whatever the clock and the random draws of each, and it
    is the fixed address followed by the URI-encoded username. *)
Theorem avatarUrl_of_username w1 w2 now1 now2 r1 r2 u1 u2 username p1 p2 :
  buildMockProfile w1 now1 r1 u1 username = Normal p1 ->
  buildMockProfile w2 now2 r2 u2 username = Normal p2 ->
  Metadata.avatarUrl (TargetProfile.metadata p1)
  = Metadata.avatarUrl (TargetProfile.metadata p2)
  /\ exists seed, encodeURIComponent username = Normal seed
       /\ Metadata.avatarUrl (TargetProfile.metadata p1)
          = Some (avatarBase ++ seed).
Proof.
  unfold buildMockProfile.
  destruct (encodeURIComponent username) as [seed|]; [|discriminate].
  intros [= <-] [= <-]. split; [reflexivity|].
  exists seed. split; reflexivity.
Qed.

Lemma avatarUrl_of_username_witness :
  exists p1 p2,
    buildMockProfile sampleWorld 0 0 0 (lit "alice") = Normal p1
    /\ buildMockProfile {| random := fun _ => (1 # 4)%Q;
                           randomUUID := fun _ => lit "another" |}
         1700000000000 7 2 (lit "alice") = Normal p2
    /\ Metadata.avatarUrl (TargetProfile.metadata p1)
       = Metadata.avatarUrl (TargetProfile.metadata p2).
Proof.
  eexists. eexists.
  split; [vm_compute; reflexivity|].
  split; [vm_compute; reflexivity|].
  eapply (avatarUrl_of_username sampleWorld
            {| random := fun _ => (1 # 4)%Q;
               randomUUID := fun _ => lit "another" |}
            0 1700000000000 0 7 0 2 (lit "alice"));
    vm_compute; reflexivity.
Defined.

(** C10: whatever the username, the generator sets [realName] to the
    string ["Unknown Subject"] (never [null]), [platform] to ['SNAPCHAT']
    and [status] to ['PUBLIC'], and so does every profile in a reachable
    state of the machine. *)
Theorem profile_constants w :
  (forall now r u username p,
     buildMockProfile w now r u username = Normal p ->
     Metadata.realName (TargetProfile.metadata p) = Some (lit "Unknown Subject")
     /\ TargetProfile.platform p = SNAPCHAT
     /\ TargetProfile.status p = PUBLIC)
  /\ (forall m p,
        Reachable w m -> targetData (app m) = Some p ->
        Metadata.realName (TargetProfile.metadata p) = Some (lit "Unknown Subject")
        /\ TargetProfile.platform p = SNAPCHAT
        /\ TargetProfile.status p = PUBLIC).
Proof.
  assert (Hgen : forall now r u username p,
             buildMockProfile w now r u username = Normal p ->
             Metadata.realName (TargetProfile.metadata p) = Some (lit "Unknown Subject")
             /\ TargetProfile.platform p = SNAPCHAT
             /\ TargetProfile.status p = PUBLIC).
  { intros now r u username p. unfold buildMockProfile.
    destruct (encodeURIComponent username); [|discriminate].
    intros [= <-]. repeat split. }
  split; [exact Hgen|].
  intros m p Hm Hp.
  destruct (reachable_generated w m Hm p Hp) as (now & r & u & q & Hb).
  exact (Hgen _ _ _ _ _ Hb).
Qed.

Lemma profile_constants_witness :
  exists p,
    buildMockProfile sampleWorld 1700000000000 0 0 (lit "flora_fauna") = Normal p
    /\ Metadata.realName (TargetProfile.metadata p) = Some (lit "Unknown Subject")
    /\ TargetProfile.platform p = SNAPCHAT
    /\ TargetProfile.status p = PUBLIC.
Proof.
  eexists. split; [vm_compute; reflexivity|].
  apply (proj1 (profile_constants sampleWorld) 1700000000000 0%nat 0%nat
           (lit "flora_fauna")).
  vm_compute. reflexivity.
Defined.

(* ---- The metric chips ---- *)

Lemma length_filter_count {A B : Type} (dec : forall x y : B, {x = y} + {x <> y})
    (p : A -> bool) (f : A -> B) (b : B) (l : list A) :
  (forall a, p a = true <-> f a = b) ->
  List.length (filter p l) = count_occ dec (map f l) b.
Proof.
  intros Hp. induction l as [|a l IH]; [reflexivity|].
  cbn [filter map count_occ].
  destruct (dec (f a) b) as [Heq|Hne]; destruct (p a) eqn:Hpa.
  - cbn [List.length]. rewrite IH. reflexivity.
  - apply Hp in Heq. congruence.
  - apply Hp in Hpa. contradiction.
  - exact IH.
Qed.

Lemma length_filter_active (js : list JobRecord.t) :
  List.length
    (filter (fun job => match JobRecord.status job with
                        | JobRecord.RUNNING | JobRecord.QUEUED => true
                        | _ => false
                        end) js)
  = (count_occ JobRecord.Status_eq_dec (map JobRecord.status js) JobRecord.RUNNING
     + count_occ JobRecord.Status_eq_dec (map JobRecord.status js) JobRecord.QUEUED)%nat.
Proof.
  induction js as [|j js IH]; [reflexivity|].
  cbn [filter map count_occ].
  destruct (JobRecord.status j);
    repeat match goal with
           | |- context [JobRecord.Status_eq_dec ?a ?b] =>
               destruct (JobRecord.Status_eq_dec a b); try congruence
           end;
    cbn [List.length]; lia.
Qed.

Lemma renders_fresh (states : list AppState) (cache : option (Z * list Metric.t)) :
  (forall d v, cache = Some (d, v) -> v = computeMetrics connectors jobQueue d) ->
  renders states cache
  = map (fun s => computeMetrics connectors jobQueue (encryptedDetections s)) states.
Proof.
  revert cache. induction states as [|s states IH]; intros cache Hc;
    [reflexivity|].
  cbn [renders map]. unfold metrics, useMemo.
  destruct cache as [[d v]|].
  - destruct (Z.eqb_spec d (encryptedDetections s)) as [Heq|Hne].
    + pose proof (Hc d v eq_refl) as Hv. subst d v. f_equal.
      apply IH. intros d' v' [= <- <-]. reflexivity.
    + f_equal. apply IH. intros d' v' [= <- <-]. reflexivity.
  - f_equal. apply IH. intros d' v' [= <- <-]. reflexivity.
Qed.

(** C8: the chip "Allowed Connectors" shows the number of connectors whose
    [compliant] flag is set, the chip "Active Jobs" the number of job
    records whose status is [RUNNING] or [QUEUED]; the value depends on the
    two tables and the counter only, and what the memo hands to a render,
    whatever was rendered before, is what a fresh computation from the
    counter of that render gives. *)
Theorem metrics_counts cs js n :
  map Metric.label (computeMetrics cs js n)
  = [lit "Allowed Connectors"; lit "Active Jobs";
     lit "Encrypted Containers Flagged"; lit "Simulated Uptime"]
  /\ map Metric.value (computeMetrics cs js n)
     = [Num (Z.of_nat (count_occ Bool.bool_dec (map Connector.compliant cs) true));
        Num (Z.of_nat
               (count_occ JobRecord.Status_eq_dec (map JobRecord.status js) JobRecord.RUNNING
                + count_occ JobRecord.Status_eq_dec (map JobRecord.status js) JobRecord.QUEUED));
        Num n;
        Str (lit "99.97%")]
  /\ forall states,
       renders states None
       = map (fun s => computeMetrics connectors jobQueue (encryptedDetections s))
           states.
Proof.
  split; [reflexivity|]. split.
  - unfold computeMetrics. cbn [map Metric.value].
    rewrite length_filter_active.
    rewrite (length_filter_count Bool.bool_dec
               (fun connector => Connector.compliant connector)
               Connector.compliant true)
      by (intros a; split; auto).
    reflexivity.
  - intros states. apply renders_fresh. discriminate.
Qed.

(** The chips of the page, with the tables of the source. *)
Example metrics_of_the_page n :
  map Metric.value (computeMetrics connectors jobQueue n)
  = [Num 3; Num 2; Num n; Str (lit "99.97%")].
Proof. reflexivity. Qed.

(* ---- The page, phase by phase ---- *)

(** [encodeURIComponent] returns on the well-formed strings and throws
    ["URI malformed"] on the others. *)
Lemma encodeURIComponent_spec (s : jsstring) :
  match encodeURIComponent s with
  | Normal _ => isWellFormed s = true
  | Throw e => isWellFormed s = false /\ e = uriMalformed
  end.
Proof.
  enough (H : match encodeURIComponent s with
              | Normal _ => isWellFormed s = true
              | Throw e => isWellFormed s = false /\ e = uriMalformed
              end
              /\ forall c,
                   match encodeURIComponent (c :: s) with
                   | Normal _ => isWellFormed (c :: s) = true
                   | Throw e => isWellFormed (c :: s) = false /\ e = uriMalformed
                   end)
    by apply H.
  induction s as [|d rest [IH1 IH2]].
  - split; [reflexivity|].
    intros c. cbn [isWellFormed encodeURIComponent].
    destruct (uriUnreserved c) eqn:Hu.
    + assert (isTrailingSurrogate c = false /\ isLeadingSurrogate c = false)
        as [-> ->]
        by (unfold uriUnreserved, isLeadingSurrogate, isTrailingSurrogate,
              inRange in *; lia).
      reflexivity.
    + destruct (isTrailingSurrogate c); [split; reflexivity|].
      destruct (isLeadingSurrogate c); [split; reflexivity|]. reflexivity.
  - split; [apply IH2|].
    intros c.
    change (encodeURIComponent (c :: d :: rest)) with
      (let continue (head : jsstring) (tail : Completion jsstring) :=
         match tail with Normal r => Normal (head ++ r) | Throw e => Throw e end in
       if uriUnreserved c then continue [c] (encodeURIComponent (d :: rest))
       else if isTrailingSurrogate c then Throw uriMalformed
       else if isLeadingSurrogate c then
         if isTrailingSurrogate d
         then continue (percentAll (utf8 (utf16SurrogatePairToCodePoint c d)))
                       (encodeURIComponent rest)
         else Throw uriMalformed
       else continue (percentAll (utf8 c)) (encodeURIComponent (d :: rest))).
    cbv zeta. cbn [isWellFormed].
    specialize (IH2 d). cbn [isWellFormed] in IH2.
    destruct (uriUnreserved c) eqn:Hu.
    + assert (isTrailingSurrogate c = false /\ isLeadingSurrogate c = false)
        as [-> ->]
        by (unfold uriUnreserved, isLeadingSurrogate, isTrailingSurrogate,
              inRange in *; lia).
      destruct (encodeURIComponent (d :: rest)); exact IH2.
    + destruct (isTrailingSurrogate c); [split; reflexivity|].
      destruct (isLeadingSurrogate c).
      * destruct (isTrailingSurrogate d); [|split; reflexivity].
        cbn [andb]. destruct (encodeURIComponent rest); exact IH1.
      * destruct (encodeURIComponent (d :: rest)); exact IH2.
Qed.

Lemma buildMockProfile_throws w now r u username reason :
  buildMockProfile w now r u username = Throw reason ->
  isWellFormed username = false /\ reason = uriMalformed.
Proof.
  unfold buildMockProfile. pose proof (encodeURIComponent_spec username) as H.
  destruct (encodeURIComponent username); [discriminate|].
  intros [= <-]. exact H.
Qed.

Lemma continueRecon_shape w t a c rn un :
  PageShape {| app := a; clock := c; timers := [t]; randoms := rn; uuids := un |} ->
  forall c',
  PageShape
    (continueRecon w t
       {| app := a; clock := c'; timers := []; randoms := rn; uuids := un |}).
Proof.
  destruct a as [q st lg td em ed]. unfold PageShape, kinds. cbn [app status logs
    targetData errorMessage encryptedDetections timers].
  intros H c'. unfold continueRecon.
  destruct st; try (destruct H as (_ & _ & H & _); discriminate H);
    try (destruct H as (_ & _ & H); discriminate H);
    try (destruct H as (_ & _ & _ & H); discriminate H);
    destruct H as (Hk & Htd & Hem & d & q0 & [= ->]);
    cbn [resume captured].
  - cbn. rewrite map_app, Hk. repeat split; eauto.
  - destruct (Z.of_nat (Datatypes.length q0) <? 3); cbn;
      rewrite !map_app, Hk; cbn.
    + repeat split; auto. discriminate.
    + rewrite Htd, Hem. repeat split; eauto.
  - cbn [clock randoms uuids].
    destruct (buildMockProfile w c' rn un q0) as [p|reason] eqn:Hb; cbn;
      rewrite !map_app, Hk; cbn.
    + repeat split. discriminate.
    + apply buildMockProfile_throws in Hb as [_ ->].
      repeat split; auto. discriminate.
Qed.

Lemma fire_shape w m : PageShape m -> PageShape (fire w m).
Proof.
  intros H. destruct m as [a c ts rn un]. unfold fire. cbn [timers].
  assert (Hts : ts = [] \/ exists t, ts = [t]).
  { unfold PageShape in H. cbn [app timers] in H.
    destruct (status a); intuition;
      repeat match goal with H : exists _, _ |- _ => destruct H end; eauto. }
  destruct Hts as [-> | [t ->]]; cbn [popEarliest app clock randoms uuids].
  - exact H.
  - apply continueRecon_shape with (c := c). exact H.
Qed.

Lemma runTimers_shape w fuel deadline m :
  PageShape m -> PageShape (runTimers w fuel deadline m).
Proof.
  revert m. induction fuel as [|fuel IH]; intros m Hm; cbn [runTimers];
    [exact Hm|].
  destruct (popEarliest (timers m)) as [[t rest]|]; [|exact Hm].
  destruct (due t <=? deadline); [|exact Hm].
  apply IH. apply fire_shape. exact Hm.
Qed.

Lemma step_shape w e m :
  fromPage e = true -> PageShape m -> PageShape (step w e m).
Proof.
  intros He Hm. destruct e as [v| | |dt]; cbn [step]; try discriminate.
  - destruct m as [[q st lg td em ed] c ts rn un].
    unfold PageShape, kinds in *. cbn in *. exact Hm.
  - unfold clickRun.
    destruct (runDisabled (status (app m))) eqn:Hs; [exact Hm|].
    unfold executeRecon.
    destruct (negb (truthy (trim (query (app m))))).
    + destruct m as [[q st lg td em ed] c ts rn un].
      unfold PageShape, kinds in *. cbn in *.
      destruct st; try discriminate Hs; intuition (try discriminate).
    + destruct m as [[q st lg td em ed] c ts rn un].
      unfold PageShape, kinds in *. cbn in *.
      assert (ts = []) as -> by (destruct st; try discriminate Hs; intuition).
      repeat split. do 2 eexists. reflexivity.
  - unfold elapse.
    pose proof (runTimers_shape w (pendingWork (timers m))
                  (clock m + Z.max 0 dt) m Hm) as H.
    destruct (runTimers w (pendingWork (timers m)) (clock m + Z.max 0 dt) m)
      as [a c ts rn un].
    exact H.
Qed.

Lemma page_shape w m : ReachableFromPage w m -> PageShape m.
Proof.
  induction 1 as [t0|e m He _ IH].
  - repeat split.
  - apply step_shape; assumption.
Qed.

Lemma run_from_page w es m :
  forallb fromPage es = true ->
  ReachableFromPage w m -> ReachableFromPage w (run w es m).
Proof.
  revert m. induction es as [|e es IH]; intros m Hes Hm; cbn [run fold_left].
  - exact Hm.
  - cbn [forallb] in Hes. apply andb_prop in Hes as [He Hes].
    apply IH; [exact Hes|]. apply page_step; assumption.
Qed.

(** X2: On the page the phase tells what the console holds: no line in [IDLE],
    the socket line in [CONNECTING], two lines in [FETCHING_HEADERS], four
    in [PARSING_JSON], six in [COMPLETE], four or five ending with the
    error line in [ERROR]; there are never more than six. *)
Theorem page_console_by_phase w m :
  ReachableFromPage w m ->
  (List.length (logs (app m)) <= 6)%nat
  /\ match status (app m) with
     | IDLE => kinds m = []
     | CONNECTING => kinds m = [LogEntry.sys]
     | FETCHING_HEADERS => kinds m = [LogEntry.sys; LogEntry.info]
     | PARSING_JSON =>
         kinds m = [LogEntry.sys; LogEntry.info; LogEntry.success; LogEntry.info]
     | COMPLETE =>
         kinds m = [LogEntry.sys; LogEntry.info; LogEntry.success; LogEntry.info;
                    LogEntry.success; LogEntry.warn]
     | ERROR =>
         kinds m = [LogEntry.sys; LogEntry.info; LogEntry.success; LogEntry.error]
         \/ kinds m = [LogEntry.sys; LogEntry.info; LogEntry.success;
                       LogEntry.info; LogEntry.error]
     end.
Proof.
  intros Hm. apply page_shape in Hm. unfold PageShape in Hm.
  assert (Hlen : forall ks, kinds m = ks ->
                 List.length (logs (app m)) = List.length ks).
  { intros ks <-. unfold kinds. symmetry. apply length_map. }
  destruct (status (app m)).
  - destruct Hm as (Hl & _). unfold kinds. rewrite Hl. split; [cbn; lia | reflexivity].
  - destruct Hm as (Hk & _). rewrite (Hlen _ Hk). split; [cbn; lia | exact Hk].
  - destruct Hm as (Hk & _). rewrite (Hlen _ Hk). split; [cbn; lia | exact Hk].
  - destruct Hm as (Hk & _). rewrite (Hlen _ Hk). split; [cbn; lia | exact Hk].
  - destruct Hm as (Hk & _). rewrite (Hlen _ Hk). split; [cbn; lia | exact Hk].
  - destruct Hm as ([Hk | Hk] & _); rewrite (Hlen _ Hk);
      (split; [cbn; lia | auto]).
Qed.

Lemma page_console_by_phase_witness :
  let m := run sampleWorld [Input (lit "alice"); ClickRun; Elapse 1200] (boot 0) in
  status (app m) = PARSING_JSON
  /\ kinds m = [LogEntry.sys; LogEntry.info; LogEntry.success; LogEntry.info].
Proof.
  cbv zeta.
  assert (Hs : status (app (run sampleWorld
                 [Input (lit "alice"); ClickRun; Elapse 1200] (boot 0)))
               = PARSING_JSON) by (vm_compute; reflexivity).
  split; [exact Hs|].
  assert (Hr : ReachableFromPage sampleWorld
                 (run sampleWorld [Input (lit "alice"); ClickRun; Elapse 1200]
                    (boot 0)))
    by (apply run_from_page; [reflexivity | apply page_boot]).
  pose proof (page_console_by_phase sampleWorld _ Hr) as [_ H].
  rewrite Hs in H. exact H.
Defined.

(** X3: On the page a profile is on display exactly in phase [COMPLETE]; the
    error message is empty while a request is in flight and is not empty
    in phase [ERROR]. *)
Theorem page_profile_iff_complete w m :
  ReachableFromPage w m ->
  (targetData (app m) <> None <-> status (app m) = COMPLETE)
  /\ (runDisabled (status (app m)) = true -> errorMessage (app m) = [])
  /\ (status (app m) = ERROR -> errorMessage (app m) <> []).
Proof.
  intros Hm. apply page_shape in Hm. unfold PageShape in Hm.
  destruct (status (app m)); cbn [runDisabled].
  - destruct Hm as (_ & Htd & _). rewrite Htd.
    repeat split; try discriminate; intros H; congruence.
  - destruct Hm as (_ & Htd & Hem & _). rewrite Htd.
    repeat split; try discriminate; auto; intros H; congruence.
  - destruct Hm as (_ & Htd & Hem & _). rewrite Htd.
    repeat split; try discriminate; auto; intros H; congruence.
  - destruct Hm as (_ & Htd & Hem & _). rewrite Htd.
    repeat split; try discriminate; auto; intros H; congruence.
  - destruct Hm as (_ & Htd & _).
    repeat split; try discriminate; auto.
  - destruct Hm as (_ & Htd & Hem & _). rewrite Htd.
    repeat split; try discriminate; auto; intros H; congruence.
Qed.

Lemma page_profile_iff_complete_witness :
  let m := run sampleWorld [Input (lit "alice"); ClickRun; Elapse 1600;
                            Input (lit " "); ClickRun] (boot 0) in
  status (app m) = COMPLETE /\ targetData (app m) <> None.
Proof.
  cbv zeta.
  assert (Hs : status (app (run sampleWorld
                 [Input (lit "alice"); ClickRun; Elapse 1600;
                  Input (lit " "); ClickRun] (boot 0)))
               = COMPLETE) by (vm_compute; reflexivity).
  split; [exact Hs|].
  assert (Hr : ReachableFromPage sampleWorld
                 (run sampleWorld
                    [Input (lit "alice"); ClickRun; Elapse 1600;
                     Input (lit " "); ClickRun] (boot 0)))
    by (apply run_from_page; [reflexivity | apply page_boot]).
  apply (page_profile_iff_complete sampleWorld _ Hr). exact Hs.
Defined.

Lemma continueRecon_not_idle w t m :
  status (app (continueRecon w t m)) <> IDLE.
Proof.
  unfold continueRecon. destruct (resume t).
  - cbn. discriminate.
  - destruct (Z.of_nat (Datatypes.length (captured t)) <? 3); cbn; discriminate.
  - destruct (buildMockProfile _ _ _ _ _); cbn; discriminate.
Qed.

Lemma runTimers_not_idle w fuel deadline m :
  status (app m) <> IDLE -> status (app (runTimers w fuel deadline m)) <> IDLE.
Proof.
  revert m. induction fuel as [|fuel IH]; intros m Hm; cbn [runTimers];
    [exact Hm|].
  destruct (popEarliest (timers m)) as [[t rest]|] eqn:Hp; [|exact Hm].
  destruct (due t <=? deadline); [|exact Hm].
  apply IH. unfold fire. rewrite Hp. apply continueRecon_not_idle.
Qed.

(** X5: [IDLE] is the phase before the first request only: once the page has
    left it, no typing, click or lapse of time brings it back. *)
Theorem idle_only_before_first_request w es m :
  forallb fromPage es = true ->
  status (app m) <> IDLE ->
  status (app (run w es m)) <> IDLE.
Proof.
  revert m. induction es as [|e es IH]; intros m Hes Hm; cbn [run fold_left].
  - exact Hm.
  - cbn [forallb] in Hes. apply andb_prop in Hes as [He Hes].
    apply IH; [exact Hes|].
    destruct e as [v| | |dt]; cbn [step]; try discriminate He.
    + exact Hm.
    + unfold clickRun. destruct (runDisabled (status (app m))); [exact Hm|].
      unfold executeRecon.
      destruct (negb (truthy (trim (query (app m))))); [exact Hm|].
      cbn. discriminate.
    + unfold elapse, setClock. cbn [app].
      apply runTimers_not_idle. exact Hm.
Qed.

Lemma idle_only_before_first_request_witness :
  let m := run sampleWorld [Input (lit "ab"); ClickRun] (boot 0) in
  status (app m) = CONNECTING
  /\ status (app (run sampleWorld
                    [Elapse 5000; Input []; ClickRun; Elapse 5000] m)) <> IDLE.
Proof.
  cbv zeta. split; [vm_compute; reflexivity|].
  apply idle_only_before_first_request; [reflexivity|].
  vm_compute. discriminate.
Defined.

(** X20: The bar is filled by a share between 0 and 1 in every phase
    ([indexOf] never answers [-1]); the share is 0 in [IDLE] only and 1 in
    [ERROR] only, and a request that is [COMPLETE] fills four fifths. *)
Theorem progress_range s :
  (0 <= progress s)%Q /\ (progress s <= 1)%Q
  /\ ((progress s == 0)%Q <-> s = IDLE)
  /\ ((progress s == 1)%Q <-> s = ERROR)
  /\ (progress COMPLETE == 4 # 5)%Q.
Proof.
  destruct s; repeat split; intros; try reflexivity; try discriminate;
    try (vm_compute; discriminate);
    match goal with
    | H : (_ == _)%Q |- _ => vm_compute in H; discriminate H
    end.
Qed.

(** X21: On the page every timer that fires moves the bar forward. *)
Theorem progress_advances w m :
  ReachableFromPage w m ->
  timers m <> [] ->
  (progress (status (app m)) < progress (status (app (fire w m))))%Q.
Proof.
  intros Hm Ht. apply page_shape in Hm. unfold PageShape in Hm.
  destruct m as [[q st lg td em ed] c ts rn un].
  cbn [app status timers targetData errorMessage logs] in *.
  unfold fire. cbn [timers].
  destruct st;
    try (destruct Hm as (_ & _ & H & _); congruence);
    try (destruct Hm as (_ & _ & H); congruence);
    try (destruct Hm as (_ & _ & _ & H); congruence);
    destruct Hm as (_ & _ & _ & d & q0 & ->); cbn [popEarliest];
    unfold continueRecon; cbn [resume captured clock randoms uuids].
  - cbn. reflexivity.
  - destruct (Z.of_nat (Datatypes.length q0) <? 3); cbn; reflexivity.
  - destruct (buildMockProfile _ _ _ _ _); cbn; reflexivity.
Qed.

Lemma progress_advances_witness :
  let m := run sampleWorld [Input (lit "alice"); ClickRun; Elapse 1200] (boot 0) in
  (progress (status (app m)) == 3 # 5)%Q
  /\ (progress (status (app m))
      < progress (status (app (fire sampleWorld m))))%Q.
Proof.
  cbv zeta. split; [vm_compute; reflexivity|].
  apply progress_advances.
  - apply run_from_page; [reflexivity | apply page_boot].
  - vm_compute. discriminate.
Defined.

(* ---- Time, typing and the console ---- *)

Lemma continueRecon_counter w t m :
  encryptedDetections (app m)
  <= encryptedDetections (app (continueRecon w t m)).
Proof.
  unfold continueRecon. destruct (resume t).
  - cbn. lia.
  - destruct (Z.of_nat (Datatypes.length (captured t)) <? 3); cbn; lia.
  - destruct (buildMockProfile _ _ _ _ _); cbn; lia.
Qed.

Lemma runTimers_counter w fuel deadline m :
  encryptedDetections (app m)
  <= encryptedDetections (app (runTimers w fuel deadline m)).
Proof.
  revert m. induction fuel as [|fuel IH]; intros m; cbn [runTimers]; [lia|].
  destruct (popEarliest (timers m)) as [[t rest]|] eqn:Hp; [|lia].
  destruct (due t <=? deadline); [|lia].
  etransitivity; [|apply IH].
  unfold fire. rewrite Hp.
  match goal with |- _ <= encryptedDetections (app (continueRecon w t ?m')) =>
    exact (continueRecon_counter w t m') end.
Qed.

(** X19: The counter of sealed containers never goes down, whatever happens to
    the component ([clearSession] included), and it is never negative in a
    reachable state. *)
Theorem detections_never_decrease w m :
  (forall e, encryptedDetections (app m)
             <= encryptedDetections (app (step w e m)))
  /\ (Reachable w m -> 0 <= encryptedDetections (app m)).
Proof.
  assert (Hstep : forall m e, encryptedDetections (app m)
                              <= encryptedDetections (app (step w e m))).
  { intros m' e. destruct e as [v| | |dt]; cbn [step].
    - cbn. lia.
    - unfold clickRun. destruct (runDisabled (status (app m'))); [lia|].
      unfold executeRecon.
      destruct (negb (truthy (trim (query (app m'))))); cbn; lia.
    - cbn. lia.
    - unfold elapse, setClock. cbn [app]. apply runTimers_counter. }
  split; [apply Hstep|].
  induction 1 as [t0|e m' _ IH]; [cbn; lia|].
  specialize (Hstep m' e). lia.
Qed.

Lemma detections_never_decrease_witness :
  let m := run sampleWorld [Input (lit "alice"); ClickRun; Elapse 1600] (boot 0) in
  encryptedDetections (app m) = 1 /\ 0 <= encryptedDetections (app m).
Proof.
  cbv zeta. split; [vm_compute; reflexivity|].
  apply (proj2 (detections_never_decrease sampleWorld _)).
  apply run_reachable. apply reach_boot.
Defined.

(** X9: A query of three code units or more with a lone surrogate is accepted
    and goes through the phases like any other, and fails at the end:
    [buildMockProfile] throws in [encodeURIComponent], the [catch] block
    sets [ERROR] with the message ["URI malformed"], the console has five
    lines, and no profile is stored nor counted. *)
Theorem malformed_query_outcome w m dt :
  timers m = [] ->
  runDisabled (status (app m)) = false ->
  truthy (trim (query (app m))) = true ->
  3 <= Z.of_nat (List.length (query (app m))) ->
  isWellFormed (query (app m)) = false ->
  1600 <= dt ->
  let m' := run w [ClickRun; Elapse dt] m in
  status (app m') = ERROR
  /\ targetData (app m') = None
  /\ errorMessage (app m') = lit "URI malformed"
  /\ encryptedDetections (app m') = encryptedDetections (app m)
  /\ kinds m' = [LogEntry.sys; LogEntry.info; LogEntry.success; LogEntry.info;
                 LogEntry.error]
  /\ option_map LogEntry.msg (nth_error (logs (app m')) 4)
     = Some (lit "FATAL: URI malformed").
Proof.
  intros Ht Hs Hq Hlen Hwf Hdt. cbv zeta.
  rewrite request_elapse by assumption.
  rewrite timeline_long by (assumption || lia). cbv zeta.
  destruct (buildMockProfile w (clock m + 1600) (randoms m) (uuids m)
              (query (app m))) as [p|reason] eqn:Hb.
  - exfalso. unfold buildMockProfile in Hb.
    pose proof (encodeURIComponent_spec (query (app m))) as Hspec.
    destruct (encodeURIComponent (query (app m))); [congruence | discriminate].
  - apply buildMockProfile_throws in Hb as [_ ->].
    unfold setClock, kinds. cbn [app status targetData errorMessage
                                 encryptedDetections logs].
    repeat split.
Qed.

Lemma malformed_query_outcome_witness :
  let m := step sampleWorld (Input [55357; 97; 98]) (boot 0) in
  let m' := run sampleWorld [ClickRun; Elapse 1600] m in
  status (app m') = ERROR /\ errorMessage (app m') = lit "URI malformed".
Proof.
  cbv zeta.
  assert (Hlen : 3 <= Z.of_nat (List.length [55357; 97; 98]))
    by (vm_compute; discriminate).
  assert (Hdt : 1600 <= 1600) by lia.
  destruct (malformed_query_outcome sampleWorld
              (step sampleWorld (Input [55357; 97; 98]) (boot 0)) 1600
              eq_refl eq_refl eq_refl Hlen eq_refl Hdt)
    as (Hs & _ & He & _).
  split; assumption.
Defined.

(** X10: [buildMockProfile] returns a profile exactly for the usernames without
    a lone surrogate; the profile carries the username as it was given and
    the identifier that [crypto.randomUUID] drew; for the other usernames
    the call throws ["URI malformed"]. *)
Theorem buildMockProfile_wellFormed w now r u username :
  (isWellFormed username = true ->
   exists p, buildMockProfile w now r u username = Normal p
             /\ TargetProfile.username p = username
             /\ TargetProfile.id p = randomUUID w u)
  /\ (isWellFormed username = false ->
      buildMockProfile w now r u username = Throw (lit "URI malformed")).
Proof.
  unfold buildMockProfile.
  pose proof (encodeURIComponent_spec username) as Hspec.
  destruct (encodeURIComponent username) as [seed|e].
  - split; [|congruence]. intros _. eexists. repeat split.
  - destruct Hspec as [Hwf ->]. split; [congruence | reflexivity].
Qed.

Lemma buildMockProfile_wellFormed_witness :
  (exists p, buildMockProfile sampleWorld 0 0 0 (lit "a b") = Normal p
             /\ TargetProfile.username p = lit "a b"
             /\ TargetProfile.id p = randomUUID sampleWorld 0)
  /\ buildMockProfile sampleWorld 0 0 0 [97; 56832] = Throw (lit "URI malformed").
Proof.
  split.
  - apply (proj1 (buildMockProfile_wellFormed sampleWorld 0 0 0 (lit "a b"))).
    reflexivity.
  - apply (proj2 (buildMockProfile_wellFormed sampleWorld 0 0 0 [97; 56832])).
    reflexivity.
Defined.

Lemma digits_length (width : nat) (n : Z) :
  List.length (digits width n) = width.
Proof.
  revert n. induction width as [|w IH]; intros n; cbn [digits]; [reflexivity|].
  rewrite length_app, IH. cbn [List.length]. lia.
Qed.

(** X14: [formatTime] never reads past the pieces of the ISO string: for every
    clock reading it gives the twelve code units [HH:MM:SS.mmm] of a time
    of day, and two readings a whole day apart give the same stamp. *)
Theorem formatTime_time_of_day (now : Z) :
  (exists h mi s ms,
     0 <= h < 24 /\ 0 <= mi < 60 /\ 0 <= s < 60 /\ 0 <= ms < 1000
     /\ now mod msPerDay = ((h * 60 + mi) * 60 + s) * 1000 + ms
     /\ formatTime now
        = digits 2 h ++ lit ":" ++ digits 2 mi ++ lit ":" ++ digits 2 s
          ++ lit "." ++ digits 3 ms)
  /\ List.length (formatTime now) = 12%nat
  /\ formatTime (now + msPerDay) = formatTime now.
Proof.
  rewrite !formatTime_isoTime. unfold isoTime.
  assert (Hday : 0 <= now mod msPerDay < msPerDay)
    by (apply Z.mod_pos_bound; reflexivity).
  unfold msPerDay in *.
  set (d := now mod 86400000) in *.
  split; [|split].
  - exists (d / 3600000), (d / 60000 mod 60), (d / 1000 mod 60), (d mod 1000).
    pose proof (Z.mod_pos_bound (d / 60000) 60 eq_refl).
    pose proof (Z.mod_pos_bound (d / 1000) 60 eq_refl).
    pose proof (Z.mod_pos_bound d 1000 eq_refl).
    assert (0 <= d / 3600000 < 24)
      by (split; [apply Z.div_pos; lia | apply Z.div_lt_upper_bound; lia]).
    repeat split; try lia.
    pose proof (Z.div_mod d 1000 ltac:(lia)).
    pose proof (Z.div_mod (d / 1000) 60 ltac:(lia)).
    pose proof (Z.div_mod (d / 1000 / 60) 60 ltac:(lia)).
    replace (d / 60000) with (d / 1000 / 60) in *
      by (rewrite Z.div_div by lia; reflexivity).
    replace (d / 3600000) with (d / 1000 / 60 / 60) in *
      by (rewrite !Z.div_div by lia; reflexivity).
    lia.
  - rewrite !length_app, !digits_length. reflexivity.
  - subst d. replace (now + 86400000) with (now + 1 * 86400000) by lia.
    rewrite Z.mod_add by lia. reflexivity.
Qed.

Lemma runTimers_wait w fuel deadline a c t rn un :
  deadline < due t ->
  runTimers w fuel deadline
    {| app := a; clock := c; timers := [t]; randoms := rn; uuids := un |}
  = {| app := a; clock := c; timers := [t]; randoms := rn; uuids := un |}.
Proof.
  intros Hd. destruct fuel; cbn [runTimers timers popEarliest]; [reflexivity|].
  apply Z.leb_gt in Hd. rewrite Hd. reflexivity.
Qed.

Lemma continueRecon_connect w a c d q rn un :
  continueRecon w {| due := d; captured := q; resume := AwaitConnect |}
    {| app := a; clock := c; timers := []; randoms := rn; uuids := un |}
  = {| app := a |> addLog c (lit "TLS handshake complete.") LogEntry.info
                |> setStatus FETCHING_HEADERS;
       clock := c;
       timers := [{| due := c + 500; captured := q; resume := AwaitHeaders |}];
       randoms := rn; uuids := un |}.
Proof. reflexivity. Qed.

Lemma continueRecon_headers w a c d q rn un :
  3 <= Z.of_nat (List.length q) ->
  continueRecon w {| due := d; captured := q; resume := AwaitHeaders |}
    {| app := a; clock := c; timers := []; randoms := rn; uuids := un |}
  = {| app := a |> addLog c (lit "GET /api/v1/profile/" ++ q ++ lit " -> 200 OK")
                     LogEntry.success
                |> setStatus PARSING_JSON
                |> addLog c (lit "Streaming JSON payload...") LogEntry.info;
       clock := c;
       timers := [{| due := c + 600; captured := q; resume := AwaitPayload |}];
       randoms := rn; uuids := un |}.
Proof.
  intros Hlen. unfold continueRecon. cbn [resume captured].
  apply Z.ltb_ge in Hlen. rewrite Hlen. reflexivity.
Qed.

(** X7: The phases of an accepted request that runs alone, by the time since
    the click: [CONNECTING] with the socket line for the first half second,
    [FETCHING_HEADERS] with two lines up to one second, and for a query of
    three code units or more [PARSING_JSON] with four lines up to 1.6
    seconds; in each the one timer set is the next of the request. *)
Theorem request_phases w m dt :
  timers m = [] ->
  runDisabled (status (app m)) = false ->
  truthy (trim (query (app m))) = true ->
  let q := query (app m) in
  let m' := run w [ClickRun; Elapse dt] m in
  (dt < 500 ->
   status (app m') = CONNECTING
   /\ kinds m' = [LogEntry.sys]
   /\ timers m' = [{| due := clock m + 500; captured := q; resume := AwaitConnect |}])
  /\ (500 <= dt < 1000 ->
      status (app m') = FETCHING_HEADERS
      /\ kinds m' = [LogEntry.sys; LogEntry.info]
      /\ timers m' = [{| due := clock m + 1000; captured := q; resume := AwaitHeaders |}])
  /\ (1000 <= dt < 1600 -> 3 <= Z.of_nat (List.length q) ->
      status (app m') = PARSING_JSON
      /\ kinds m' = [LogEntry.sys; LogEntry.info; LogEntry.success; LogEntry.info]
      /\ timers m' = [{| due := clock m + 1600; captured := q; resume := AwaitPayload |}]).
Proof.
  intros Ht Hs Hq. cbv zeta.
  rewrite request_elapse by assumption.
  rewrite executeRecon_accepts by assumption. rewrite Ht. cbn [Datatypes.app].
  split; [|split].
  - intros Hdt.
    rewrite runTimers_wait by (cbn [due]; lia).
    unfold kinds. repeat split.
  - intros Hdt.
    rewrite runTimers_one by (cbn [due]; lia).
    rewrite continueRecon_connect. cbn [due].
    rewrite runTimers_wait by (cbn [due]; lia).
    unfold kinds, setClock. cbn [app timers].
    replace (clock m + 500 + 500) with (clock m + 1000) by lia.
    repeat split.
  - intros Hdt Hlen.
    rewrite runTimers_one by (cbn [due]; lia).
    rewrite continueRecon_connect. cbn [due].
    rewrite runTimers_one by (cbn [due]; lia).
    rewrite continueRecon_headers by exact Hlen. cbn [due].
    rewrite runTimers_wait by (cbn [due]; lia).
    unfold kinds, setClock. cbn [app timers].
    replace (clock m + 500 + 500 + 600) with (clock m + 1600) by lia.
    repeat split.
Qed.

Lemma request_phases_witness :
  let m := step sampleWorld (Input (lit "alice")) (boot 0) in
  status (app (run sampleWorld [ClickRun; Elapse 499] m)) = CONNECTING
  /\ status (app (run sampleWorld [ClickRun; Elapse 500] m)) = FETCHING_HEADERS
  /\ status (app (run sampleWorld [ClickRun; Elapse 1599] m)) = PARSING_JSON.
Proof.
  cbv zeta.
  assert (Hlen : 3 <= Z.of_nat (List.length (lit "alice")))
    by (vm_compute; discriminate).
  split; [|split].
  - apply (proj1 (request_phases sampleWorld
             (step sampleWorld (Input (lit "alice")) (boot 0)) 499
             eq_refl eq_refl eq_refl)). lia.
  - apply (proj1 (proj2 (request_phases sampleWorld
             (step sampleWorld (Input (lit "alice")) (boot 0)) 500
             eq_refl eq_refl eq_refl))). lia.
  - apply (proj2 (proj2 (request_phases sampleWorld
             (step sampleWorld (Input (lit "alice")) (boot 0)) 1599
             eq_refl eq_refl eq_refl))); [lia | exact Hlen].
Defined.

Lemma continueRecon_appends w t m :
  exists added,
    logs (app (continueRecon w t m)) = logs (app m) ++ added
    /\ Forall notSys added.
Proof.
  unfold continueRecon. destruct (resume t).
  - cbn. eexists. split; [reflexivity|].
    repeat constructor; discriminate.
  - destruct (Z.of_nat (Datatypes.length (captured t)) <? 3); cbn;
      rewrite <- app_assoc; eexists; (split; [reflexivity|]);
      repeat constructor; discriminate.
  - destruct (buildMockProfile _ _ _ _ _); cbn.
    + rewrite <- app_assoc. eexists. split; [reflexivity|].
      repeat constructor; discriminate.
    + eexists. split; [reflexivity|]. repeat constructor; discriminate.
Qed.

Lemma runTimers_appends w fuel deadline m :
  exists added,
    logs (app (runTimers w fuel deadline m)) = logs (app m) ++ added
    /\ Forall notSys added.
Proof.
  revert m. induction fuel as [|fuel IH]; intros m; cbn [runTimers].
  - exists []. rewrite app_nil_r. split; [reflexivity | constructor].
  - destruct (popEarliest (timers m)) as [[t rest]|] eqn:Hp.
    + destruct (due t <=? deadline).
      * destruct (IH (fire w m)) as (later & Hl & Hn).
        unfold fire in Hl at 2. rewrite Hp in Hl.
        match type of Hl with
        | _ = logs (app (continueRecon w t ?m')) ++ _ =>
            destruct (continueRecon_appends w t m') as (first & Hf & Hnf)
        end.
        cbn [app] in Hf. rewrite Hf, <- app_assoc in Hl.
        exists (first ++ later). split; [exact Hl|].
        apply Forall_app. split; assumption.
      * exists []. rewrite app_nil_r. split; [reflexivity | constructor].
    + exists []. rewrite app_nil_r. split; [reflexivity | constructor].
Qed.

(** X16: Time only adds to the console: whatever timers fire while [dt]
    milliseconds pass, the lines that were there stay first and in order;
    the lines added are never of kind [sys], which only a click writes. *)
Theorem elapse_appends w dt m :
  exists added,
    logs (app (step w (Elapse dt) m)) = logs (app m) ++ added
    /\ Forall (fun e => LogEntry.type e <> LogEntry.sys) added.
Proof.
  cbn [step]. unfold elapse, setClock. cbn [app].
  apply runTimers_appends.
Qed.

Lemma continueRecon_setQuery w t v m :
  continueRecon w t (update (setQuery v) m)
  = update (setQuery v) (continueRecon w t m).
Proof.
  unfold continueRecon. destruct (resume t).
  - reflexivity.
  - destruct (Z.of_nat (Datatypes.length (captured t)) <? 3); reflexivity.
  - cbn [update clock randoms uuids].
    destruct (buildMockProfile _ _ _ _ _); reflexivity.
Qed.

Lemma runTimers_setQuery w fuel deadline v m :
  runTimers w fuel deadline (update (setQuery v) m)
  = update (setQuery v) (runTimers w fuel deadline m).
Proof.
  revert m. induction fuel as [|fuel IH]; intros m; cbn [runTimers];
    [reflexivity|].
  cbn [update timers].
  destruct (popEarliest (timers m)) as [[t rest]|] eqn:Hp; [|reflexivity].
  destruct (due t <=? deadline); [|reflexivity].
  rewrite <- IH. f_equal.
  unfold fire. cbn [update timers]. rewrite Hp.
  cbn [app clock randoms uuids].
  match goal with
  | |- continueRecon w t ?a = update _ (continueRecon w t ?b) =>
      change a with (update (setQuery v) b)
  end.
  apply continueRecon_setQuery.
Qed.

(** X17: Typing in the query box has no effect on a request in flight, which
    keeps the query it was started with: typing and then letting time pass
    gives the same machine as letting time pass and then typing. *)
Theorem typing_commutes_with_time w v dt m :
  step w (Elapse dt) (step w (Input v) m)
  = step w (Input v) (step w (Elapse dt) m).
Proof.
  cbn [step]. unfold elapse. cbn [update clock timers].
  rewrite runTimers_setQuery. reflexivity.
Qed.

(* ---- The generated fields ---- *)

Lemma encodeURIComponent_plain (s : jsstring) :
  forallb uriUnreserved s = true -> encodeURIComponent s = Normal s.
Proof.
  induction s as [|c rest IH]; [reflexivity|].
  cbn [forallb]. intros H. apply andb_prop in H as [Hc Hrest].
  cbn [encodeURIComponent]. rewrite Hc.
  destruct rest as [|d rest'].
  - reflexivity.
  - rewrite (IH Hrest). reflexivity.
Qed.

Lemma unreserved_not_blank (s : jsstring) :
  s <> [] -> forallb uriUnreserved s = true -> truthy (trim s) = true.
Proof.
  intros Hs H. apply trim_nonempty.
  destruct s as [|c rest]; [contradiction|].
  cbn [forallb] in *. apply andb_prop in H as [Hc _].
  assert (isWhiteSpace c = false) as ->
    by (unfold uriUnreserved, isWhiteSpace, inRange in *; lia).
  reflexivity.
Qed.

(** X11: For a username of letters, digits and [- _ . ! ~ * ' ( )] only, the
    avatar address is the fixed address followed by the username as it
    stands, and the call does not throw. *)
Theorem avatarUrl_of_plain_username w now r u username :
  forallb uriUnreserved username = true ->
  exists p,
    buildMockProfile w now r u username = Normal p
    /\ Metadata.avatarUrl (TargetProfile.metadata p)
       = Some (lit "https://api.dicebear.com/9.x/thumbs/svg?seed=" ++ username).
Proof.
  intros H. unfold buildMockProfile.
  rewrite (encodeURIComponent_plain _ H).
  eexists. split; reflexivity.
Qed.

Lemma avatarUrl_of_plain_username_witness :
  exists p,
    buildMockProfile sampleWorld 0 0 0 (lit "flora_fauna") = Normal p
    /\ Metadata.avatarUrl (TargetProfile.metadata p)
       = Some (lit "https://api.dicebear.com/9.x/thumbs/svg?seed=flora_fauna").
Proof.
  destruct (avatarUrl_of_plain_username sampleWorld 0 0 0 (lit "flora_fauna")
              eq_refl) as (p & Hp & Ha).
  exists p. split; [exact Hp|]. rewrite Ha. reflexivity.
Defined.

(** X13: Every preset button fills in a query that RUN accepts and that ends in
    [COMPLETE]: with nothing else in flight, 1.6 seconds after the click
    the profile of the preset's username is on display, the counter is one
    higher and the console has six lines. *)
Theorem presets_complete w m preset dt :
  In preset presetTargets ->
  timers m = [] ->
  runDisabled (status (app m)) = false ->
  1600 <= dt ->
  let m' := run w [Input (Preset.username preset); ClickRun; Elapse dt] m in
  status (app m') = COMPLETE
  /\ (exists p, targetData (app m') = Some p
        /\ TargetProfile.username p = Preset.username preset)
  /\ encryptedDetections (app m') = encryptedDetections (app m) + 1
  /\ List.length (logs (app m')) = 6%nat.
Proof.
  intros Hin Ht Hs Hdt. cbv zeta.
  assert (Hplain : forallb uriUnreserved (Preset.username preset) = true
                   /\ 3 <= Z.of_nat (List.length (Preset.username preset))).
  { destruct Hin as [<- | [<- | [<- | []]]]; split;
      solve [reflexivity | vm_compute; discriminate]. }
  destruct Hplain as [Hplain Hlen].
  change (run w [Input (Preset.username preset); ClickRun; Elapse dt] m)
    with (run w [ClickRun; Elapse dt]
            (update (setQuery (Preset.username preset)) m)).
  assert (Hq : truthy (trim (Preset.username preset)) = true).
  { apply unreserved_not_blank; [|exact Hplain].
    intros E. rewrite E in Hlen. cbn in Hlen. lia. }
  rewrite request_elapse by assumption.
  rewrite timeline_long by (assumption || (cbn [update clock]; lia)).
  cbv zeta. cbn [update setQuery app query clock randoms uuids].
  unfold buildMockProfile. rewrite (encodeURIComponent_plain _ Hplain).
  unfold setClock. cbn [app status targetData encryptedDetections logs].
  repeat split. eexists. split; reflexivity.
Qed.

Lemma presets_complete_witness :
  let preset := Preset.mk (lit "Heritage") (lit "archivist")
                  (lit "Open culture imagery") in
  let m' := run sampleWorld [Input (Preset.username preset); ClickRun;
                             Elapse 1600] (boot 0) in
  In preset presetTargets
  /\ status (app m') = COMPLETE
  /\ encryptedDetections (app m') = 1.
Proof.
  cbv zeta.
  assert (Hin : In (Preset.mk (lit "Heritage") (lit "archivist")
                      (lit "Open culture imagery")) presetTargets)
    by (right; left; reflexivity).
  assert (Hdt : 1600 <= 1600) by lia.
  split; [exact Hin|].
  destruct (presets_complete sampleWorld (boot 0) _ 1600 Hin eq_refl eq_refl Hdt)
    as (Hs & _ & Hc & _).
  split; [exact Hs | exact Hc].
Defined.

(* ---- The console and the request it belongs to ---- *)

Lemma buildMockProfile_username w now r u username p :
  buildMockProfile w now r u username = Normal p ->
  TargetProfile.username p = username.
Proof.
  unfold buildMockProfile. destruct (encodeURIComponent username); [|discriminate].
  intros [= <-]. reflexivity.
Qed.

Lemma continueRecon_story w t a c rn un :
  PageStory {| app := a; clock := c; timers := [t]; randoms := rn; uuids := un |} ->
  status a = phaseOf (resume t) ->
  forall c',
  PageStory
    (continueRecon w t
       {| app := a; clock := c'; timers := []; randoms := rn; uuids := un |}).
Proof.
  destruct a as [q st lg td em ed]. unfold PageStory, messages.
  cbn [app status logs targetData timers].
  intros H Hst c'. unfold continueRecon.
  destruct t as [d0 q0 k]. cbn [resume captured] in *.
  destruct k; cbn [phaseOf] in Hst; subst st;
    destruct H as (d & q1 & [= -> ->] & Hm).
  - cbn. rewrite map_app, Hm. do 2 eexists. split; reflexivity.
  - destruct (Z.of_nat (Datatypes.length q1) <? 3); cbn;
      rewrite !map_app, Hm; cbn.
    + exists q1, (lit "Username too short (HTTP 400)"). left. reflexivity.
    + do 2 eexists. split; reflexivity.
  - cbn [clock randoms uuids].
    destruct (buildMockProfile w c' rn un q1) as [p|reason] eqn:Hb; cbn;
      rewrite !map_app, Hm; cbn.
    + exists p. rewrite (buildMockProfile_username _ _ _ _ _ _ Hb).
      split; reflexivity.
    + exists q1, reason. right. reflexivity.
Qed.

Lemma fire_story w m :
  PageShape m -> PageStory m -> PageStory (fire w m).
Proof.
  intros Hshape H. destruct m as [a c ts rn un]. unfold fire. cbn [timers].
  assert (Hts : ts = [] \/ exists t, ts = [t] /\ status a = phaseOf (resume t)).
  { unfold PageShape in Hshape. cbn [app timers] in Hshape.
    destruct (status a); intuition;
      repeat match goal with H : exists _, _ |- _ => destruct H end;
      subst; right; eexists; split; reflexivity. }
  destruct Hts as [-> | [t [-> Hst]]]; cbn [popEarliest app clock randoms uuids].
  - exact H.
  - apply continueRecon_story with (c := c); assumption.
Qed.

Lemma runTimers_story w fuel deadline m :
  PageShape m -> PageStory m -> PageStory (runTimers w fuel deadline m).
Proof.
  revert m. induction fuel as [|fuel IH]; intros m Hs Hm; cbn [runTimers];
    [exact Hm|].
  destruct (popEarliest (timers m)) as [[t rest]|]; [|exact Hm].
  destruct (due t <=? deadline); [|exact Hm].
  apply IH; [apply fire_shape | apply fire_story]; assumption.
Qed.

Lemma step_story w e m :
  fromPage e = true -> PageShape m -> PageStory m -> PageStory (step w e m).
Proof.
  intros He Hshape Hm. destruct e as [v| | |dt]; cbn [step]; try discriminate.
  - destruct m as [[q st lg td em ed] c ts rn un].
    unfold PageStory, messages in *. cbn in *. exact Hm.
  - unfold clickRun.
    destruct (runDisabled (status (app m))) eqn:Hs; [exact Hm|].
    unfold executeRecon.
    destruct (negb (truthy (trim (query (app m))))).
    + destruct m as [[q st lg td em ed] c ts rn un].
      unfold PageStory, messages in *. cbn in *. exact Hm.
    + destruct m as [[q st lg td em ed] c ts rn un].
      unfold PageShape, PageStory, messages in *. cbn in *.
      assert (ts = []) as ->
        by (destruct st; try discriminate Hs; intuition).
      do 2 eexists. split; reflexivity.
  - unfold elapse.
    pose proof (runTimers_story w (pendingWork (timers m))
                  (clock m + Z.max 0 dt) m Hshape Hm) as H.
    destruct (runTimers w (pendingWork (timers m)) (clock m + Z.max 0 dt) m)
      as [a c ts rn un].
    exact H.
Qed.

Lemma page_story w m : ReachableFromPage w m -> PageStory m.
Proof.
  induction 1 as [t0|e m He Hm IH].
  - reflexivity.
  - apply step_story; [assumption | apply (page_shape w); assumption | assumption].
Qed.

(** X4: On the page the console and the profile on display belong to the same
    request: when a profile is shown, the six messages of the console are
    those of the request for the username of that profile, whatever has
    been typed in the query box since. *)
Theorem page_console_matches_profile w m p :
  ReachableFromPage w m ->
  targetData (app m) = Some p ->
  map LogEntry.msg (logs (app m))
  = [lit "Initializing network socket for " ++ TargetProfile.username p ++ lit "...";
     lit "TLS handshake complete.";
     lit "GET /api/v1/profile/" ++ TargetProfile.username p ++ lit " -> 200 OK";
     lit "Streaming JSON payload...";
     lit "Data object materialized.";
     lit "MEO container detected: AES-256 encrypted. No access without device key."].
Proof.
  intros Hm Hp.
  pose proof (page_shape w m Hm) as Hshape.
  pose proof (page_story w m Hm) as Hstory.
  unfold PageShape, PageStory, messages in *.
  destruct (status (app m));
    try (destruct Hshape as (_ & Htd & _); congruence).
  destruct Hstory as (p' & Hp' & Hmsgs).
  assert (p' = p) as -> by congruence.
  exact Hmsgs.
Qed.

Lemma page_console_matches_profile_witness :
  let m := run sampleWorld [Input (lit "alice"); ClickRun; Elapse 700;
                            Input (lit "bob"); Elapse 900] (boot 0) in
  query (app m) = lit "bob"
  /\ match targetData (app m) with
     | Some p =>
         nth_error (map LogEntry.msg (logs (app m))) 0
         = Some (lit "Initializing network socket for " ++ TargetProfile.username p
                 ++ lit "...")
     | None => False
     end.
Proof.
  cbv zeta. split; [vm_compute; reflexivity|].
  assert (Hr : ReachableFromPage sampleWorld
                 (run sampleWorld [Input (lit "alice"); ClickRun; Elapse 700;
                                   Input (lit "bob"); Elapse 900] (boot 0)))
    by (apply run_from_page; [reflexivity | apply page_boot]).
  destruct (targetData (app (run sampleWorld
              [Input (lit "alice"); ClickRun; Elapse 700;
               Input (lit "bob"); Elapse 900] (boot 0)))) as [p|] eqn:Hp.
  - rewrite (page_console_matches_profile sampleWorld _ p Hr Hp). reflexivity.
  - vm_compute in Hp. discriminate Hp.
Defined.

(** X6: A click on an enabled RUN button starts a request exactly when the
    query has a code unit that is not white space, whatever its length:
    then the phase is [CONNECTING], the console holds the socket line alone,
    the old profile and error message are gone and one timer more is set. *)
Theorem run_accepts_iff_not_blank w m :
  runDisabled (status (app m)) = false ->
  let m' := step w ClickRun m in
  (status (app m') = CONNECTING
   <-> exists c, In c (query (app m)) /\ isWhiteSpace c = false)
  /\ (status (app m') = CONNECTING ->
      map LogEntry.msg (logs (app m'))
      = [lit "Initializing network socket for " ++ query (app m) ++ lit "..."]
      /\ targetData (app m') = None
      /\ errorMessage (app m') = []
      /\ timers m'
         = timers m ++ [{| due := clock m + 500; captured := query (app m);
                           resume := AwaitConnect |}]).
Proof.
  intros Hs. cbv zeta. cbn [step]. unfold clickRun. rewrite Hs.
  assert (Hblank : forallb isWhiteSpace (query (app m)) = false
                   <-> exists c, In c (query (app m)) /\ isWhiteSpace c = false).
  { split.
    - intros H. induction (query (app m)) as [|c rest IH]; [discriminate|].
      cbn [forallb] in H. destruct (isWhiteSpace c) eqn:Hc.
      + destruct (IH H) as (c' & Hin & Hc'). exists c'. split; [right|]; assumption.
      + exists c. split; [left; reflexivity | exact Hc].
    - intros (c & Hin & Hc).
      destruct (forallb isWhiteSpace (query (app m))) eqn:Hall; [|reflexivity].
      rewrite forallb_forall in Hall. rewrite (Hall c Hin) in Hc. discriminate. }
  destruct (truthy (trim (query (app m)))) eqn:Hq.
  - rewrite executeRecon_accepts by assumption.
    apply trim_nonempty in Hq. split.
    + split; [intros _; apply Hblank; exact Hq | reflexivity].
    + intros _. repeat split.
  - rewrite executeRecon_rejects by assumption.
    apply trim_empty in Hq. cbn [update app status setErrorMessage].
    split.
    + split.
      * intros H. rewrite H in Hs. discriminate.
      * intros H. apply Hblank in H. congruence.
    + intros H. rewrite H in Hs. discriminate.
Qed.

Lemma run_accepts_iff_not_blank_witness :
  let m := step sampleWorld (Input (lit " x")) (boot 0) in
  status (app (step sampleWorld ClickRun m)) = CONNECTING
  /\ exists c, In c (query (app m)) /\ isWhiteSpace c = false.
Proof.
  cbv zeta.
  assert (Hs : status (app (step sampleWorld ClickRun
                 (step sampleWorld (Input (lit " x")) (boot 0)))) = CONNECTING)
    by (vm_compute; reflexivity).
  split; [exact Hs|].
  apply (proj1 (run_accepts_iff_not_blank sampleWorld
                  (step sampleWorld (Input (lit " x")) (boot 0)) eq_refl)).
  exact Hs.
Defined.

(* ---- Witnesses of the lemmas above ---- *)

Lemma short_query_outcome_witness :
  let m := step sampleWorld (Input (lit "ab")) (boot 0) in
  let m' := run sampleWorld [ClickRun; Elapse 1000] m in
  status (app m') = ERROR /\ List.length (logs (app m')) = 4%nat.
Proof.
  cbv zeta.
  assert (Hlen : Z.of_nat (List.length (lit "ab")) < 3) by (vm_compute; reflexivity).
  assert (Hdt : 1000 <= 1000) by lia.
  destruct (short_query_outcome sampleWorld
              (step sampleWorld (Input (lit "ab")) (boot 0)) 1000
              eq_refl eq_refl eq_refl Hlen Hdt)
    as (Hs & _ & _ & _ & _ & Hl).
  split; [exact Hs|]. rewrite Hl. reflexivity.
Defined.

Lemma page_single_timeline_witness :
  SingleTimeline
    (run sampleWorld [Input (lit "alice"); ClickRun; Elapse 700; ClickRun;
                      Input (lit "bob"); ClickRun] (boot 0)).
Proof.
  apply (page_single_timeline sampleWorld).
  apply run_from_page; [reflexivity | apply page_boot].
Defined.

(* ---- Slicing time ---- *)

Lemma pendingWork_nil (ts : list Timer) : pendingWork ts = 0%nat -> ts = [].
Proof.
  destruct ts as [|t ts]; [reflexivity|].
  cbn [pendingWork fold_right]. destruct (resume t); cbn [awaitsLeft]; lia.
Qed.

(** More fuel than the timers can use changes nothing. *)
Lemma runTimers_fuel w deadline f1 f2 m :
  (pendingWork (timers m) <= f1)%nat -> (pendingWork (timers m) <= f2)%nat ->
  runTimers w f1 deadline m = runTimers w f2 deadline m.
Proof.
  revert f2 m. induction f1 as [|f1 IH]; intros f2 m H1 H2.
  - rewrite (runTimers_idle w f2 deadline m); [reflexivity|].
    apply pendingWork_nil. lia.
  - destruct f2 as [|f2].
    + rewrite (runTimers_idle w (S f1) deadline m); [reflexivity|].
      apply pendingWork_nil. lia.
    + cbn [runTimers].
      destruct (popEarliest (timers m)) as [[t rest]|] eqn:Hp; [|reflexivity].
      destruct (due t <=? deadline); [|reflexivity].
      pose proof (fire_work w m t rest Hp).
      apply IH; lia.
Qed.

(** Running the timers up to one deadline and then up to a later one is
    running them up to the later one. *)
Lemma runTimers_twice w d1 d2 f1 f2 f m :
  d1 <= d2 ->
  (pendingWork (timers m) <= f1)%nat ->
  (pendingWork (timers (runTimers w f1 d1 m)) <= f2)%nat ->
  (pendingWork (timers m) <= f)%nat ->
  runTimers w f2 d2 (runTimers w f1 d1 m) = runTimers w f d2 m.
Proof.
  intros Hd. revert f2 f m. induction f1 as [|f1 IH]; intros f2 f m H1 H2 H.
  - cbn [runTimers] in *. apply runTimers_fuel; assumption.
  - cbn [runTimers] in *.
    destruct (popEarliest (timers m)) as [[t rest]|] eqn:Hp;
      [|apply runTimers_fuel; assumption].
    destruct (Z.leb_spec (due t) d1) as [Hle|Hgt];
      [|apply runTimers_fuel; assumption].
    pose proof (fire_work w m t rest Hp) as Hw.
    destruct f as [|f]; [lia|].
    cbn [runTimers]. rewrite Hp.
    assert (Hle2 : (due t <=? d2) = true) by (apply Z.leb_le; lia).
    rewrite Hle2. apply IH; [lia | exact H2 | lia].
Qed.

Lemma popEarliest_rest (ts : list Timer) (t : Timer) (rest : list Timer) :
  popEarliest ts = Some (t, rest) ->
  In t ts /\ forall t', In t' rest -> In t' ts.
Proof.
  revert t rest. induction ts as [|a ts IH]; intros t rest; cbn [popEarliest].
  - discriminate.
  - destruct (popEarliest ts) as [[b rest']|] eqn:Hp.
    + destruct (IH b rest' eq_refl) as [Hb Hrest].
      destruct (due a <=? due b); intros [= <- <-].
      * split; [left; reflexivity | intros t' H; right; exact H].
      * split; [right; exact Hb|].
        intros t' [<- | H]; [left; reflexivity | right; apply Hrest; exact H].
    + intros [= <- <-]. split; [left; reflexivity | intros t' []].
Qed.

Lemma continueRecon_punctual w t m :
  Punctual m -> Punctual (continueRecon w t m).
Proof.
  intros Hm t'. unfold continueRecon. destruct (resume t).
  - cbn. rewrite in_app_iff. intros [H | [<- | []]]; [apply Hm; exact H | cbn; lia].
  - destruct (Z.of_nat (Datatypes.length (captured t)) <? 3); cbn.
    + apply Hm.
    + rewrite in_app_iff. intros [H | [<- | []]]; [apply Hm; exact H | cbn; lia].
  - destruct (buildMockProfile _ _ _ _ _); cbn; apply Hm.
Qed.

Lemma fire_punctual w m : Punctual m -> Punctual (fire w m).
Proof.
  intros Hm. unfold fire.
  destruct (popEarliest (timers m)) as [[t rest]|] eqn:Hp; [|exact Hm].
  apply continueRecon_punctual. intros t' Hin. cbn [timers clock] in *.
  destruct (popEarliest_rest _ _ _ Hp) as [Ht Hrest].
  pose proof (popEarliest_earliest _ _ _ Hp t' (Hrest t' Hin)).
  pose proof (Hm t' (Hrest t' Hin)). lia.
Qed.

Lemma runTimers_punctual w fuel deadline m :
  Punctual m -> Punctual (runTimers w fuel deadline m).
Proof.
  revert m. induction fuel as [|fuel IH]; intros m Hm; cbn [runTimers];
    [exact Hm|].
  destruct (popEarliest (timers m)) as [[t rest]|]; [|exact Hm].
  destruct (due t <=? deadline); [|exact Hm].
  apply IH. apply fire_punctual. exact Hm.
Qed.

(** A clock that is moved, but not past a timer, changes nothing in what
    the timers do. *)
Lemma runTimers_setClock w fuel deadline c x m :
  Punctual m -> (forall t, In t (timers m) -> c <= due t) ->
  setClock x (runTimers w fuel deadline (setClock c m))
  = setClock x (runTimers w fuel deadline m).
Proof.
  intros Hm Hc. destruct fuel as [|fuel]; cbn [runTimers]; [reflexivity|].
  cbn [setClock timers].
  destruct (popEarliest (timers m)) as [[t rest]|] eqn:Hp; [|reflexivity].
  destruct (due t <=? deadline); [|reflexivity].
  f_equal. f_equal. unfold fire. cbn [setClock timers]. rewrite Hp.
  cbn [app clock randoms uuids].
  destruct (popEarliest_rest _ _ _ Hp) as [Ht _].
  rewrite (Z.max_r c) by (apply Hc; exact Ht).
  rewrite (Z.max_r (clock m)) by (apply Hm; exact Ht).
  reflexivity.
Qed.

Lemma reachable_punctual w m : Reachable w m -> Punctual m.
Proof.
  induction 1 as [t0|e m _ IH].
  - intros t [].
  - destruct e as [v| | |dt]; cbn [step].
    + exact IH.
    + unfold clickRun. destruct (runDisabled (status (app m))); [exact IH|].
      unfold executeRecon.
      destruct (negb (truthy (trim (query (app m))))); [exact IH|].
      intros t. cbn. rewrite in_app_iff.
      intros [H | [<- | []]]; [apply IH; exact H | cbn; lia].
    + exact IH.
    + intros t Hin. pose proof (elapse_settles w dt m t Hin). lia.
Qed.

(** X18: Time can be let pass in one go or in two: in a reachable state, [a]
    milliseconds and then [b] more leave the machine where [a + b]
    milliseconds leave it, so what a request comes to does not depend on
    when the page is looked at. *)
Theorem elapse_splits w a b m :
  Reachable w m -> 0 <= a -> 0 <= b ->
  step w (Elapse b) (step w (Elapse a) m) = step w (Elapse (a + b)) m.
Proof.
  intros Hm Ha Hb. apply reachable_punctual in Hm.
  cbn [step]. unfold elapse.
  rewrite !Z.max_r by lia.
  set (d1 := clock m + a).
  set (r1 := runTimers w (pendingWork (timers m)) d1 m).
  cbn [setClock clock timers].
  replace (clock m + (a + b)) with (d1 + b) by (unfold d1; lia).
  rewrite runTimers_setClock.
  - f_equal. unfold r1. apply runTimers_twice; lia.
  - apply runTimers_punctual. exact Hm.
  - intros t Hin.
    pose proof (runTimers_settles w d1 (pendingWork (timers m)) m
                  (Nat.le_refl _) t Hin). lia.
Qed.

Lemma elapse_splits_witness :
  let m := run sampleWorld [Input (lit "alice"); ClickRun] (boot 0) in
  status (app (run sampleWorld [Elapse 700; Elapse 900] m)) = COMPLETE
  /\ run sampleWorld [Elapse 700; Elapse 900] m
     = run sampleWorld [Elapse 1600] m.
Proof.
  cbv zeta. split; [vm_compute; reflexivity|].
  assert (Ha : 0 <= 700) by lia. assert (Hb : 0 <= 900) by lia.
  apply (elapse_splits sampleWorld 700 900 _
           (run_reachable sampleWorld [Input (lit "alice"); ClickRun] _
              (reach_boot sampleWorld 0)) Ha Hb).
Defined.

(* ---- The stamps of the console ---- *)

Lemma continueRecon_stamps w t m :
  Forall Stamped (logs (app m)) ->
  Forall Stamped (logs (app (continueRecon w t m))).
Proof.
  intros Hm.
  assert (Hadd : forall c msg k l, Forall Stamped l ->
            Forall Stamped (l ++ [LogEntry.mk (formatTime c) msg k])).
  { intros c msg k l Hl. apply Forall_app. split; [exact Hl|].
    constructor; [|constructor]. exists c. reflexivity. }
  unfold continueRecon. destruct (resume t).
  - cbn. apply Hadd. exact Hm.
  - destruct (Z.of_nat (Datatypes.length (captured t)) <? 3); cbn;
      repeat apply Hadd; exact Hm.
  - destruct (buildMockProfile _ _ _ _ _); cbn; repeat apply Hadd; exact Hm.
Qed.

Lemma runTimers_stamps w fuel deadline m :
  Forall Stamped (logs (app m)) ->
  Forall Stamped (logs (app (runTimers w fuel deadline m))).
Proof.
  revert m. induction fuel as [|fuel IH]; intros m Hm; cbn [runTimers];
    [exact Hm|].
  destruct (popEarliest (timers m)) as [[t rest]|] eqn:Hp; [|exact Hm].
  destruct (due t <=? deadline); [|exact Hm].
  apply IH. unfold fire. rewrite Hp. apply continueRecon_stamps. exact Hm.
Qed.

(** X15: In every reachable state each line of the console carries the time of
    day of some clock reading, twelve code units long. *)
Theorem console_stamps w m :
  Reachable w m ->
  Forall (fun e => (exists c, LogEntry.time e = formatTime c)
                   /\ List.length (LogEntry.time e) = 12%nat)
    (logs (app m)).
Proof.
  intros Hm.
  assert (Hs : Forall Stamped (logs (app m))).
  { induction Hm as [t0|e m _ IH]; [constructor|].
    destruct e as [v| | |dt]; cbn [step].
    - exact IH.
    - unfold clickRun. destruct (runDisabled (status (app m))); [exact IH|].
      unfold executeRecon.
      destruct (negb (truthy (trim (query (app m))))); [exact IH|].
      cbn. constructor; [|constructor]. eexists. reflexivity.
    - constructor.
    - unfold elapse, setClock. cbn [app]. apply runTimers_stamps. exact IH. }
  eapply Forall_impl; [|exact Hs].
  intros e [c Hc]. split; [exists c; exact Hc|].
  rewrite Hc. apply (formatTime_time_of_day c).
Qed.

Lemma console_stamps_witness :
  let m := run sampleWorld [Input (lit "alice"); ClickRun; Elapse 1600] (boot 0) in
  List.length (logs (app m)) = 6%nat
  /\ Forall (fun e => List.length (LogEntry.time e) = 12%nat) (logs (app m)).
Proof.
  cbv zeta. split; [vm_compute; reflexivity|].
  eapply Forall_impl;
    [|apply (console_stamps sampleWorld _
               (run_reachable sampleWorld
                  [Input (lit "alice"); ClickRun; Elapse 1600] _
                  (reach_boot sampleWorld 0)))].
  intros e [_ H]. exact H.
Defined.

(* ---- Clearing the session ---- *)




